(** * vscode-azuretools: context values, site commands, deployments tree
      and the stale-closer action

    A shallow embedding of
      - appservice/src/tree/DeploymentsTreeItem.ts
      - appservice/src/registerSiteCommand.ts
      - triage-actions/stale-closer/action.yml
      - the declarations of utils/index.d.ts that those files use.

    JavaScript strings are [string]; an optional property or an
    [undefined] value is an [option]; [Date.valueOf()] is NaN or an
    integral number of milliseconds, and a difference of two of them is
    rounded as a double is. An [async] method is a computation over an
    explicit state that either returns a value or throws. *)

From Stdlib Require Import ZArith Lia.
From stdpp Require Import base option list sorting strings.

(** ** Asynchronous, throwing, state-passing computations *)

Inductive Outcome (E A : Type) : Type :=
| Returned (a : A)
| Thrown (e : E).
Arguments Returned {E A} a.
Arguments Thrown {E A} e.

Definition Async (S E A : Type) : Type := S -> S * Outcome E A.

Definition resolve {S E A} (a : A) : Async S E A := fun s => (s, Returned a).

Definition throw {S E A} (e : E) : Async S E A := fun s => (s, Thrown e).

Definition await {S E A B} (m : Async S E A) (k : A -> Async S E B)
  : Async S E B :=
  fun s => match m s with
           | (s', Returned a) => k a s'
           | (s', Thrown e) => (s', Thrown e)
           end.

Definition tryCatch {S E E' A} (m : Async S E A) (h : E -> Async S E' A)
  : Async S E' A :=
  fun s => match m s with
           | (s', Returned a) => (s', Returned a)
           | (s', Thrown e) => h e s'
           end.

Definition getState {S E} : Async S E S := fun s => (s, Returned s).

Definition modifyState {S E} (f : S -> S) : Async S E unit :=
  fun s => (f s, Returned tt).

Declare Scope async_scope.
Delimit Scope async_scope with async.
Notation "x <- m ;; k" := (await m (fun x => k))
  (at level 100, m at next level, right associativity) : async_scope.
Notation "m ;;; k" := (await m (fun _ => k))
  (at level 100, right associativity) : async_scope.

(** ** utils/index.d.ts *)

(** Modelled from the spec: the tags that [createContextValue] joins.
    utils/index.d.ts only declares the function; the spec calls its
    result a deduped, alphabetized set of tags. Strings are ordered code
    unit by code unit, as the default [Array.prototype.sort] does. *)
Definition contextTags (values : list string) : list string :=
  merge_sort String.le (remove_dups values).

(** Modelled from the spec: the body of [createContextValue], of which
    utils/index.d.ts only holds the declaration, documented as returning
    "a sorted, unique string of values separated by `;`". The spec calls
    the result a deduped, alphabetized, semicolon-joined set of tags. *)
Definition createContextValue (values : list string) : string :=
  String.concat ";" (contextTags values).

Record IParsedError : Type := {
  errorType : string;
  message : string;
  stack : option string;
  stepName : option string;
  isUserCancelledError : bool
}.

Record IErrorHandlingContext : Type := {
  suppressDisplay : option bool;
  rethrow : option bool;
  suppressReportIssue : option bool;
  forceIncludeInReportIssueCommand : option bool;
  issueProperties : list (string * option string)
}.

Record IActionContext : Type := {
  callbackId : option string;
  errorHandling : IErrorHandlingContext;
  valuesToMask : list string
}.

(** [context.errorHandling.suppressReportIssue = b] *)
Definition set_suppressReportIssue (b : bool) (context : IActionContext)
  : IActionContext :=
  {| callbackId := callbackId context;
     errorHandling :=
       {| suppressDisplay := suppressDisplay (errorHandling context);
          rethrow := rethrow (errorHandling context);
          suppressReportIssue := Some b;
          forceIncludeInReportIssueCommand :=
            forceIncludeInReportIssueCommand (errorHandling context);
          issueProperties := issueProperties (errorHandling context) |};
     valuesToMask := valuesToMask context |}.

(** ** appservice/src/registerSiteCommand.ts *)

(** JavaScript values the embedding leaves open: what a callback or an
    SDK call may throw ([unknown]) and what a callback may return
    ([any]). *)
Class JsValues : Type := {
  unknown : Type;
  any : Type;
  undefined : any
}.

(** What the file imports: [parseError] of utils/index.d.ts and
    [localize] of ./localize. *)
Class SiteCommandHost `{JsValues} : Type := {
  parseError : unknown -> IParsedError;
  localize : string -> string -> string
}.

Section RegisterSiteCommand.
Context `{SiteCommandHost}.

(** What the wrapper throws: the caught value itself, or a fresh
    [new Error(message)]. *)
Inductive SiteError : Type :=
| Rethrown (error : unknown)
| NewError (newMessage : string).

(** A callback runs on the action context, which it may mutate, and
    returns or throws (also by a rejected promise). *)
Definition CommandCallback (E : Type) : Type :=
  list any -> Async IActionContext E any.

(** [parsedError.errorType === '502' || parsedError.errorType === '503'] *)
Definition is502or503 (error : unknown) : Prop :=
  errorType (parseError error) = "502" ∨ errorType (parseError error) = "503".

#[global] Instance is502or503_dec (error : unknown) : Decision (is502or503 error).
Proof. unfold is502or503. apply _. Defined.

Definition handleSiteErrors (error : unknown)
  : Async IActionContext SiteError unit :=
  let parsedError := parseError error in
  if String.eqb (errorType parsedError) "502"
     || String.eqb (errorType parsedError) "503"
  then
    (modifyState (set_suppressReportIssue true) ;;;
     let troubleshooting :=
       localize "502or503Troubleshooting"
                "View troubleshooting tips [here](https://aka.ms/AA772mm)." in
     throw (NewError (message parsedError +:+ " " +:+ troubleshooting)))%async
  else throw (Rethrown error).

(** The async arrow function handed to [registerCommand]. A normal
    return of [handleSiteErrors] would make it return [undefined]. *)
Definition siteCommandCallback (callback : CommandCallback unknown)
  : CommandCallback SiteError :=
  fun args =>
    tryCatch (callback args)
             (fun error => handleSiteErrors error ;;; resolve undefined)%async.

(** The call [registerCommand(commandId, callback, debounce)]: the
    embedding keeps what the command is registered with. *)
Record CommandRegistration : Type := {
  reg_commandId : string;
  reg_callback : CommandCallback SiteError;
  reg_debounce : option Z;
  reg_telemetryId : option string
}.

Definition registerCommand (commandId : string)
    (callback : CommandCallback SiteError) (debounce : option Z)
  : CommandRegistration :=
  {| reg_commandId := commandId; reg_callback := callback;
     reg_debounce := debounce; reg_telemetryId := None |}.

Definition registerSiteCommand (commandId : string)
    (callback : CommandCallback unknown) (debounce : option Z)
  : CommandRegistration :=
  registerCommand commandId (siteCommandCallback callback) debounce.

End RegisterSiteCommand.

(** ** appservice/src/tree/DeploymentsTreeItem.ts *)

(** The two properties read from @azure/arm-appservice's models. *)
Record SiteConfig : Type := { scmType : option string }.
Record SiteSourceControl : Type := { repoUrl : option string }.

(** The numbers [compareChildrenImpl] can return: NaN, or a double that
    is an integer. *)
Inductive JsNumber : Type :=
| JsNaN
| JsInt (z : Z).

(** An integer rounded to the nearest double (53 significant bits, ties
    to the even significand), below the overflow threshold. *)
Definition roundDouble (z : Z) : Z :=
  let a := Z.abs z in
  let k := (Z.log2 a - 52)%Z in
  if (k <=? 0)%Z then z
  else
    let q := (a / 2 ^ k)%Z in
    let r := (a mod 2 ^ k)%Z in
    let half := (2 ^ (k - 1))%Z in
    let q' := if (half <? r)%Z || ((r =? half)%Z && Z.odd q)
              then (q + 1)%Z else q in
    (Z.sgn z * (q' * 2 ^ k))%Z.

(** The largest time value of a [Date], in milliseconds. *)
Definition maxTimeValue : Z := 8640000000000000.

(** [a - b] on two results of [Date.valueOf()]; [None] is NaN, the time
    value of an invalid date. *)
Definition jsSubtract (a b : option Z) : JsNumber :=
  match a, b with
  | Some x, Some y => JsInt (roundDouble (x - y))
  | _, _ => JsNaN
  end.

(** What reading a property of [undefined] throws. *)
Inductive JsTypeError : Type := TypeError.

(** Types the file imports: [ParsedSite] and its client (../SiteClient),
    [KuduModels.DeployResult] with its optional [id], the parent tree
    item, and [DeploymentTreeItem] with its [receivedTime] date, read
    through [valueOf()]: NaN ([None]) or an integer of at most
    [maxTimeValue] in magnitude. *)
Class AppServiceTypes `{JsValues} : Type := {
  ParsedSite : Type;
  SiteClient : Type;
  AzExtParentTreeItem : Type;
  DeployResult : Type;
  deployResult_id : DeployResult -> option string;
  DeploymentTreeItem : Type;
  receivedTime : DeploymentTreeItem -> option Z;
  receivedTime_clipped :
    forall (ti : DeploymentTreeItem) (t : Z),
      receivedTime ti = Some t -> (Z.abs t <= maxTimeValue)%Z
}.

(** The calls made on the cloud SDK, in the order they are made. *)
Inductive SdkCall : Type :=
| CreateClient
| GetSiteConfig
| GetSourceControl
| GetDeployResults.

Global Instance SdkCall_eq_dec : EqDecision SdkCall.
Proof. solve_decision. Defined.

Section DeploymentsTreeItemModel.
Context `{AppServiceTypes}.

Record DeploymentsTreeItemOptions : Type := {
  options_site : ParsedSite;
  options_contextValuesToAdd : option (list string)
}.

Record DeploymentsTreeItem : Type := {
  parent : AzExtParentTreeItem;
  label : string;
  childTypeLabel : string;
  site : ParsedSite;
  suppressMaskLabel : bool;
  contextValuesToAdd : list string;
  _scmType : option string;
  _repoUrl : option string
}.

Definition contextValueConnected : string := "deploymentsConnected".
Definition contextValueUnconnected : string := "deploymentsUnconnected".

(** [IGenericTreeItemOptions], with the properties this file sets. *)
Record GenericTreeItem : Type := {
  generic_parent : DeploymentsTreeItem;
  generic_commandId : option string;
  generic_contextValue : string;
  generic_label : string
}.

(** [new InvalidTreeItem(parent, error, options)], the item that
    [createTreeItemsWithErrorHandling] shows for a source object whose
    tree item could not be created. *)
Record InvalidTreeItem : Type := {
  invalid_parent : DeploymentsTreeItem;
  invalid_error : unknown;
  invalid_label : string;
  invalid_contextValue : string;
  invalid_description : option string
}.

(** The children of the node: the deployment items, the generic item
    this file adds, and the invalid items that
    [createTreeItemsWithErrorHandling] adds. *)
Inductive AzExtTreeItem : Type :=
| ofDeploymentTreeItem (ti : DeploymentTreeItem)
| ofGenericTreeItem (ti : GenericTreeItem)
| ofInvalidTreeItem (ti : InvalidTreeItem).

(** The state an async method runs on: the tree item ([this]) and the
    SDK calls made so far. *)
Record TreeState : Type := {
  this : DeploymentsTreeItem;
  calls : list SdkCall
}.

Definition set_scmType (v : option string) (s : TreeState) : TreeState :=
  {| this := {| parent := parent (this s); label := label (this s);
                childTypeLabel := childTypeLabel (this s);
                site := site (this s);
                suppressMaskLabel := suppressMaskLabel (this s);
                contextValuesToAdd := contextValuesToAdd (this s);
                _scmType := v; _repoUrl := _repoUrl (this s) |};
     calls := calls s |}.

Definition set_repoUrl (v : option string) (s : TreeState) : TreeState :=
  {| this := {| parent := parent (this s); label := label (this s);
                childTypeLabel := childTypeLabel (this s);
                site := site (this s);
                suppressMaskLabel := suppressMaskLabel (this s);
                contextValuesToAdd := contextValuesToAdd (this s);
                _scmType := _scmType (this s); _repoUrl := v |};
     calls := calls s |}.

(** One SDK call: it is recorded, and its response may depend on the
    calls made before it. *)
Definition sdkCall {A} (c : SdkCall)
    (respond : list SdkCall -> Outcome unknown A)
  : Async TreeState unknown A :=
  fun s => ({| this := this s; calls := calls s ++ [c] |}, respond (calls s)).

End DeploymentsTreeItemModel.

(** What the file imports and calls: [l10n.t] of vscode, the [ScmType]
    enum (../ScmType), [ext.prefix] (../extensionVariables), the site
    client's calls, whose responses may depend on the calls made before,
    [retryKuduCall] (../utils/kuduUtils), the [DeploymentTreeItem]
    constructor and [createTreeItemsWithErrorHandling] of the parent
    class (utils/index.d.ts). *)
Class AppServiceHost `{AppServiceTypes} : Type := {
  l10n_t : string -> string;
  ScmType_None : string;
  ScmType_LocalGit : string;
  ScmType_GitHub : string;
  ext_prefix : string;
  createClient :
    ParsedSite -> IActionContext -> list SdkCall -> Outcome unknown SiteClient;
  getSiteConfig : SiteClient -> list SdkCall -> Outcome unknown SiteConfig;
  getSourceControl :
    SiteClient -> list SdkCall -> Outcome unknown SiteSourceControl;
  getDeployResults :
    SiteClient -> IActionContext -> list SdkCall ->
    Outcome unknown (list DeployResult);
  retryKuduCall :
    forall T : Type, IActionContext -> string ->
    Async TreeState unknown T -> Async TreeState unknown T;
  newDeploymentTreeItem :
    DeploymentsTreeItem -> DeployResult -> option string ->
    Outcome unknown DeploymentTreeItem;
  createTreeItemsWithErrorHandling :
    forall TSource : Type, DeploymentsTreeItem -> list TSource -> string ->
    (TSource -> Outcome unknown (option AzExtTreeItem)) ->
    (TSource -> option string) ->
    Outcome unknown (list AzExtTreeItem)
}.

Section DeploymentsTreeItemMethods.
Context `{AppServiceHost}.

Definition new_DeploymentsTreeItem (parent0 : AzExtParentTreeItem)
    (options : DeploymentsTreeItemOptions) : DeploymentsTreeItem :=
  {| parent := parent0;
     label := l10n_t "Deployments";
     childTypeLabel := l10n_t "Deployment";
     site := options_site options;
     suppressMaskLabel := true;
     contextValuesToAdd :=
       match options_contextValuesToAdd options with
       | Some values => values
       | None => []
       end;
     _scmType := None;
     _repoUrl := None |}.

(** [this._scmType === ScmType.None] *)
Definition scmType_is_None (ti : DeploymentsTreeItem) : bool :=
  bool_decide (_scmType ti = Some ScmType_None).

(** The first element of the array handed to [createContextValue]. *)
Definition contextValueBase (ti : DeploymentsTreeItem) : string :=
  if scmType_is_None ti then contextValueUnconnected
  else contextValueConnected.

Definition contextValue (ti : DeploymentsTreeItem) : string :=
  createContextValue (contextValueBase ti :: contextValuesToAdd ti).

Definition description (ti : DeploymentsTreeItem) : string :=
  if bool_decide (_scmType ti = Some ScmType_LocalGit) then l10n_t "Git"
  else if bool_decide (_scmType ti = Some ScmType_GitHub) then
    match _repoUrl ti with
    | Some url =>
        if String.eqb url "" then l10n_t "GitHub"
        else String.substring (String.length "https://github.com/")
               (String.length url - String.length "https://github.com/") url
    | None => l10n_t "GitHub"
    end
  else "".

Definition hasMoreChildrenImpl (ti : DeploymentsTreeItem) : bool := false.

Definition init (context : IActionContext) : Async TreeState unknown unit :=
  (s <- getState ;;
   client <- sdkCall CreateClient (createClient (site (this s)) context) ;;
   siteConfig <- sdkCall GetSiteConfig (getSiteConfig client) ;;
   sourceControl <- sdkCall GetSourceControl (getSourceControl client) ;;
   modifyState (set_scmType (scmType siteConfig)) ;;;
   modifyState (set_repoUrl (repoUrl sourceControl)))%async.

Definition refreshImpl (context : IActionContext)
  : Async TreeState unknown unit :=
  (s <- getState ;;
   client <- sdkCall CreateClient (createClient (site (this s)) context) ;;
   siteConfig <- sdkCall GetSiteConfig (getSiteConfig client) ;;
   sourceControl <- sdkCall GetSourceControl (getSourceControl client) ;;
   modifyState (set_scmType (scmType siteConfig)) ;;;
   modifyState (set_repoUrl (repoUrl sourceControl)))%async.

(** [async () => { return client.getDeployResults(context); }] *)
Definition getDeployResultsCallback (client : SiteClient)
    (context : IActionContext) : Async TreeState unknown (list DeployResult) :=
  sdkCall GetDeployResults (getDeployResults client context).

(** [dr => dr.id ? dr.id.substring(0, 7) : undefined] *)
Definition labelOnError (dr : DeployResult) : option string :=
  match deployResult_id dr with
  | Some id => if String.eqb id "" then None
               else Some (String.substring 0 7 id)
  | None => None
  end.

Definition connectToGitHubItem (ti : DeploymentsTreeItem) : GenericTreeItem :=
  {| generic_parent := ti;
     generic_commandId := Some (ext_prefix +:+ ".connectToGitHub");
     generic_contextValue := "ConnectToGithub";
     generic_label := "Connect to a GitHub Repository..." |}.

Definition liftOutcome {A} (o : Outcome unknown A)
  : Async TreeState unknown A := fun s => (s, o).

Definition loadMoreChildrenImpl (_clearCache : bool)
    (context : IActionContext) : Async TreeState unknown (list AzExtTreeItem) :=
  (init context ;;;
   s <- getState ;;
   client <- sdkCall CreateClient (createClient (site (this s)) context) ;;
   deployments <- retryKuduCall _ context "getDeployResults"
                    (getDeployResultsCallback client context) ;;
   s1 <- getState ;;
   children <- liftOutcome
     (createTreeItemsWithErrorHandling _ (this s1) deployments
        "invalidDeployment"
        (fun dr =>
           match newDeploymentTreeItem (this s1) dr (_scmType (this s1)) with
           | Returned ti => Returned (Some (ofDeploymentTreeItem ti))
           | Thrown e => Thrown e
           end)
        labelOnError) ;;
   s2 <- getState ;;
   if scmType_is_None (this s2)
   then resolve (children ++ [ofGenericTreeItem (connectToGitHubItem (this s2))])
   else resolve children)%async.

(** [ti instanceof GenericTreeItem] *)
Definition isGenericTreeItem (ti : AzExtTreeItem) : bool :=
  match ti with
  | ofGenericTreeItem _ => true
  | _ => false
  end.

(** [ti.receivedTime.valueOf()]: only a [DeploymentTreeItem] has the
    property; on any other child it is [undefined] and the call throws. *)
Definition receivedTimeValueOf (ti : AzExtTreeItem)
  : Outcome JsTypeError (option Z) :=
  match ti with
  | ofDeploymentTreeItem d => Returned (receivedTime d)
  | _ => Thrown TypeError
  end.

Definition compareChildrenImpl (ti1 ti2 : AzExtTreeItem)
  : Outcome JsTypeError JsNumber :=
  if isGenericTreeItem ti1 then Returned (JsInt 1)
  else if isGenericTreeItem ti2 then Returned (JsInt (-1))
  else
    match receivedTimeValueOf ti2 with
    | Thrown e => Thrown e
    | Returned t2 =>
        match receivedTimeValueOf ti1 with
        | Thrown e => Thrown e
        | Returned t1 => Returned (jsSubtract t2 t1)
        end
    end.

(** The comparator lets [ti1] stand before [ti2]: it returns a number
    that is not positive. *)
Definition inChildOrder (ti1 ti2 : AzExtTreeItem) : Prop :=
  ∃ n : Z, compareChildrenImpl ti1 ti2 = Returned (JsInt n) ∧ (n <= 0)%Z.

(** Two deployment items with valid dates, the first at least as recent
    as the second. *)
Definition notOlderDeployment (ti1 ti2 : AzExtTreeItem) : Prop :=
  ∃ (d1 d2 : DeploymentTreeItem) (t1 t2 : Z),
    ti1 = ofDeploymentTreeItem d1 ∧ ti2 = ofDeploymentTreeItem d2
    ∧ receivedTime d1 = Some t1 ∧ receivedTime d2 = Some t2
    ∧ (t2 <= t1)%Z.

(** How many [getDeployResults] calls a state has recorded. *)
Definition getDeployResultsCalls (s : TreeState) : nat :=
  length (filter (fun c => c = GetDeployResults) (calls s)).

(** The other public fields and the parent are the same in both items. *)
Definition sameOtherFields (ti ti' : DeploymentsTreeItem) : Prop :=
  site ti' = site ti
  ∧ label ti' = label ti
  ∧ childTypeLabel ti' = childTypeLabel ti
  ∧ contextValuesToAdd ti' = contextValuesToAdd ti
  ∧ suppressMaskLabel ti' = suppressMaskLabel ti
  ∧ parent ti' = parent ti.

End DeploymentsTreeItemMethods.

(** A retrying helper in the manner of p-retry, which
    appservice/package.json depends on: the callback is run again after
    a failure, up to [retries] more times. *)
Fixpoint retryAsync {S E A} (retries : nat) (m : Async S E A) : Async S E A :=
  match retries with
  | O => m
  | Datatypes.S n => tryCatch m (fun _ => retryAsync n m)
  end.

(** ** triage-actions/stale-closer/action.yml *)

(** The YAML document: scalars are kept as their text. *)
#[warnings="-register-all"]
Inductive Yaml : Type :=
| YScalar (text : string)
| YMapping (entries : list (string * Yaml)).

Definition yaml_entries (y : Yaml) : list (string * Yaml) :=
  match y with
  | YScalar _ => []
  | YMapping entries => entries
  end.

Definition yaml_keys (y : Yaml) : list string := (yaml_entries y).*1.

Fixpoint assoc_get {A} (key : string) (entries : list (string * A))
  : option A :=
  match entries with
  | [] => None
  | (k, v) :: rest => if String.eqb k key then Some v else assoc_get key rest
  end.

Definition yaml_get (key : string) (y : Yaml) : option Yaml :=
  assoc_get key (yaml_entries y).

Definition required_input (description0 : string) : Yaml :=
  YMapping [("description", YScalar description0); ("required", YScalar "true")].

Definition optional_input (description0 : string) : Yaml :=
  YMapping [("description", YScalar description0)].

Definition action_yml : Yaml :=
  YMapping [
    ("name", YScalar "Stale Closer");
    ("description",
     YScalar "Closes stale issues that have not had activity or upvotes");
    ("inputs", YMapping [
       ("token", YMapping [
          ("description",
           YScalar "GitHub token with issue, comment, and label read/write permissions");
          ("default", YScalar "${{ github.token }}")]);
       ("closeDays", required_input "Days to wait before closing the issue");
       ("closeComment",
        required_input "Comment to add upon closing the issue");
       ("warnDays",
        required_input "Number of days before closing the issue to warn about it's impending closure");
       ("warnComment",
        required_input "Comment when an issue is nearing automatic closure");
       ("upvotesRequired",
        required_input "Number of upvotes required to prevent automatic closure");
       ("numCommentsOverride",
        required_input "Number of comments required to prevent automatic closure");
       ("candidateMilestone",
        required_input "Milestone with candidate issues that will be checked for automatic closure");
       ("labelsToExclude",
        optional_input "Comma-separated list of labels to exclude from automatic closure");
       ("staleLabel",
        optional_input "Optional label to apply when closing the issue");
       ("readonly", optional_input "If set, perform a dry-run")]);
    ("runs", YMapping [("using", YScalar "node12");
                       ("main", YScalar "index.js")])
  ].

Definition action_inputs : list (string * Yaml) :=
  match yaml_get "inputs" action_yml with
  | Some y => yaml_entries y
  | None => []
  end.

Definition action_outputs : option Yaml := yaml_get "outputs" action_yml.

Definition input_is_required (input : Yaml) : bool :=
  match yaml_get "required" input with
  | Some (YScalar "true") => true
  | _ => false
  end.

Definition required_inputs : list string :=
  (filter (fun kv => input_is_required kv.2 = true) action_inputs).*1.

(** ** The stale-closer's closing rule *)

(** The inputs of action.yml that the rule reads. *)
Record StaleCloserInputs : Type := {
  closeDays : Z;
  upvotesRequired : Z;
  candidateMilestone : string
}.

(** What the rule reads of a GitHub issue. *)
Record Issue : Type := {
  issue_number : Z;
  issue_milestone : option string;
  issue_upvotes : Z;
  issue_ageDays : Z
}.

(** Modelled from the spec: the issues the stale-closer, whose code
    (index.js, named by [runs.main] of action.yml) is not among the
    sources, looks at: those of the [candidateMilestone], the "milestone
    with candidate issues that will be checked for automatic closure". *)
Definition isCandidate (inputs : StaleCloserInputs) (issue : Issue) : bool :=
  bool_decide (issue_milestone issue = Some (candidateMilestone inputs)).

(** Modelled from the spec: the decision of the stale-closer, whose code
    (index.js) is not among the sources. The spec's rule is that it
    "closes issues exactly when upvotes < threshold and age >
    closeDays". *)
Definition closesIssue (inputs : StaleCloserInputs) (issue : Issue) : bool :=
  (issue_upvotes issue <? upvotesRequired inputs)%Z
  && (closeDays inputs <? issue_ageDays issue)%Z.

(** Modelled from the spec: one run of the stale-closer, whose code
    (index.js) is not among the sources, over the issues its query
    returned: the candidate issues it closes. *)
Definition staleCloser (inputs : StaleCloserInputs) (issues : list Issue)
  : list Issue :=
  filter (fun issue =>
            isCandidate inputs issue && closesIssue inputs issue = true)
         issues.

(** ** The Azure client factories

    The second document of auth/src/contracts/AzureAccount.ts:
    [createAzureClient], [createAzureSubscriptionClient] and
    [createGenericClient]. *)

(** The property read from @azure/ms-rest-azure-env's [Environment]. *)
Record Environment : Type := { resourceManagerEndpointUrl : string }.

(** What the factories import: the credentials type, the editor's
    display language ([vscode.env.language]) and
    [appendExtensionUserAgent] of ./extensionUserAgent. *)
Class AzureClientHost : Type := {
  AzExtServiceClientCredentials : Type;
  vscode_env_language : string;
  appendExtensionUserAgent : option string -> string
}.

Section AzureClientFactories.
Context `{AzureClientHost}.

(** The options literal the factories build; [userAgent] holds a
    function. *)
Record IMinimumServiceClientOptions : Type := {
  acceptLanguage : option string;
  baseUri : option string;
  userAgent : option (option string -> string)
}.

Record AzureClientInfo : Type := {
  info_credentials : AzExtServiceClientCredentials;
  info_subscriptionId : string;
  info_environment : Environment
}.

Record AzureSubscriptionClientInfo : Type := {
  subInfo_credentials : AzExtServiceClientCredentials;
  subInfo_environment : Environment
}.

(** The argument of [createGenericClient] when it is given: bare
    credentials, or an object with a [credentials] property. *)
Inductive GenericClientInfo : Type :=
| bareCredentials (credentials : AzExtServiceClientCredentials)
| credentialsAndEnvironment (credentials : AzExtServiceClientCredentials)
                            (environment : Environment).

(** [new gsc.GenericServiceClient(credentials, options)]: the client is
    what it was constructed with. *)
Record GenericServiceClient : Type := {
  gsc_credentials : option AzExtServiceClientCredentials;
  gsc_options : IMinimumServiceClientOptions
}.

Definition createAzureClient {T : Type} (clientInfo : AzureClientInfo)
    (clientType : AzExtServiceClientCredentials -> string ->
                  option IMinimumServiceClientOptions -> T) : T :=
  clientType (info_credentials clientInfo) (info_subscriptionId clientInfo)
    (Some {| acceptLanguage := Some vscode_env_language;
             baseUri := Some (resourceManagerEndpointUrl
                                (info_environment clientInfo));
             userAgent := Some appendExtensionUserAgent |}).

Definition createAzureSubscriptionClient {T : Type}
    (clientInfo : AzureSubscriptionClientInfo)
    (clientType : AzExtServiceClientCredentials ->
                  option IMinimumServiceClientOptions -> T) : T :=
  clientType (subInfo_credentials clientInfo)
    (Some {| acceptLanguage := Some vscode_env_language;
             baseUri := Some (resourceManagerEndpointUrl
                                (subInfo_environment clientInfo));
             userAgent := Some appendExtensionUserAgent |}).

Definition createGenericClient (clientInfo : option GenericClientInfo)
  : GenericServiceClient :=
  let '(credentials, baseUri0) :=
    match clientInfo with
    | Some (credentialsAndEnvironment credentials environment) =>
        (Some credentials, Some (resourceManagerEndpointUrl environment))
    | Some (bareCredentials credentials) => (Some credentials, None)
    | None => (None, None)
    end in
  {| gsc_credentials := credentials;
     gsc_options := {| acceptLanguage := None;
                       baseUri := baseUri0;
                       userAgent := Some appendExtensionUserAgent |} |}.

End AzureClientFactories.

(** ** Sample hosts

    Concrete instances on which the definitions run. *)

Definition sampleJs : JsValues :=
  {| unknown := string; any := option Z; undefined := None |}.

(** Thrown values are strings that carry their HTTP status as error
    type. *)
Definition sampleSiteCommandHost : @SiteCommandHost sampleJs :=
  @Build_SiteCommandHost sampleJs
    (fun error : string =>
       {| errorType := error; message := "Request failed";
          stack := None; stepName := None; isUserCancelledError := false |})
    (fun _ text => text).

Definition sampleContext : IActionContext :=
  {| callbackId := Some "appService.Restart";
     errorHandling :=
       {| suppressDisplay := None; rethrow := None;
          suppressReportIssue := None;
          forceIncludeInReportIssueCommand := None;
          issueProperties := [] |};
     valuesToMask := [] |}.

(** A callback that fails with the status it is given as first
    argument, and returns 7 when given none. *)
Definition sampleCallback
  : @CommandCallback sampleJs string :=
  fun args =>
    match args with
    | Some status :: _ =>
        throw (if (status =? 502)%Z then "502"
               else if (status =? 503)%Z then "503" else "404")
    | _ => resolve (Some 7%Z)
    end.

(** [TimeClip] of ECMAScript: a time value beyond [maxTimeValue] is
    NaN. *)
Definition timeClip (t : option Z) : option Z :=
  match t with
  | Some z => if (Z.abs z <=? maxTimeValue)%Z then Some z else None
  | None => None
  end.

(** Sites and clients are names, a deploy result is its optional id, a
    deployment tree item is the time its date was made from. *)
Definition sampleTypes : @AppServiceTypes sampleJs.
Proof.
  refine (@Build_AppServiceTypes sampleJs string string string
            (option string) (fun dr => dr) (option Z) timeClip _).
  intros [z |] t; simpl; [| discriminate].
  destruct (Z.leb_spec (Z.abs z) maxTimeValue) as [Hle | _]; [| discriminate].
  intros [= <-]. exact Hle.
Defined.

(** A host over the sample types, for a given [retryKuduCall] helper and
    given responses of [getSiteConfig] and [getDeployResults]. *)
Definition sampleHost
    (retry : forall T : Type, IActionContext -> string ->
             Async (@TreeState sampleJs sampleTypes) string T ->
             Async (@TreeState sampleJs sampleTypes) string T)
    (siteConfigResponse : list SdkCall -> Outcome string SiteConfig)
    (deployResultsResponse :
       list SdkCall -> Outcome string (list (option string)))
  : @AppServiceHost sampleJs sampleTypes :=
  @Build_AppServiceHost sampleJs sampleTypes
    (fun text => text) "None" "LocalGit" "GitHub" "appService"
    (fun site0 _ _ => Returned site0)
    (fun _ => siteConfigResponse)
    (fun _ _ => Returned {| repoUrl := Some "https://github.com/org/repo" |})
    (fun _ _ => deployResultsResponse)
    retry
    (fun _ dr _ => Returned (Some 1700000000000%Z))
    (fun TSource _ sources _ createTreeItem _ =>
       Returned
         (omap (fun source =>
                  match createTreeItem source with
                  | Returned (Some ti) => Some ti
                  | _ => None
                  end) sources)).

(** The helper runs its callback once. *)
Definition runOnce (T : Type) (context : IActionContext) (callName : string)
    (callback : Async (@TreeState sampleJs sampleTypes) string T)
  : Async (@TreeState sampleJs sampleTypes) string T := callback.

(** The helper runs its callback again after a failure, three times at
    most. *)
Definition retryThrice (T : Type) (context : IActionContext)
    (callName : string)
    (callback : Async (@TreeState sampleJs sampleTypes) string T)
  : Async (@TreeState sampleJs sampleTypes) string T :=
  retryAsync 3 callback.

Definition gitHubSiteConfig (history : list SdkCall)
  : Outcome string SiteConfig := Returned {| scmType := Some "GitHub" |}.

Definition siteConfigUnavailable (history : list SdkCall)
  : Outcome string SiteConfig := Thrown "503".

Definition oneDeployResult (history : list SdkCall)
  : Outcome string (list (option string)) :=
  Returned [Some "0123456789abcdef"].

(** Kudu resets the first connection and answers the second call. *)
Definition flakyDeployResults (history : list SdkCall)
  : Outcome string (list (option string)) :=
  if bool_decide (GetDeployResults ∈ history)
  then Returned [Some "0123456789abcdef"]
  else Thrown "ECONNRESET".

Definition steadyHost : @AppServiceHost sampleJs sampleTypes :=
  sampleHost runOnce gitHubSiteConfig oneDeployResult.

Definition retryingHost : @AppServiceHost sampleJs sampleTypes :=
  sampleHost retryThrice gitHubSiteConfig flakyDeployResults.

Definition unavailableHost : @AppServiceHost sampleJs sampleTypes :=
  sampleHost runOnce siteConfigUnavailable oneDeployResult.

Definition sampleItem (host : @AppServiceHost sampleJs sampleTypes)
  : @DeploymentsTreeItem sampleJs sampleTypes :=
  @new_DeploymentsTreeItem sampleJs sampleTypes host "webApp"
    {| options_site := "my-site" : @ParsedSite sampleJs sampleTypes;
       options_contextValuesToAdd := Some ["appService"] |}.

Definition sampleState (host : @AppServiceHost sampleJs sampleTypes)
  : @TreeState sampleJs sampleTypes :=
  {| this := sampleItem host; calls := [] |}.

(** A stale-closer configuration and three issues: one of the candidate
    milestone that is old and has few upvotes, one that has the upvotes,
    one of another milestone. *)
Definition sampleInputs : StaleCloserInputs :=
  {| closeDays := 60;
     upvotesRequired := 5;
     candidateMilestone := "Backlog Candidates" |}.

Definition quietIssue : Issue :=
  {| issue_number := 41;
     issue_milestone := Some "Backlog Candidates";
     issue_upvotes := 1; issue_ageDays := 90 |}.

Definition upvotedIssue : Issue :=
  {| issue_number := 42;
     issue_milestone := Some "Backlog Candidates";
     issue_upvotes := 12; issue_ageDays := 90 |}.

Definition plannedIssue : Issue :=
  {| issue_number := 43;
     issue_milestone := Some "On Deck";
     issue_upvotes := 0; issue_ageDays := 400 |}.

Definition unconnectedSiteConfig (history : list SdkCall)
  : Outcome string SiteConfig := Returned {| scmType := Some "None" |}.

Definition unconnectedHost : @AppServiceHost sampleJs sampleTypes :=
  sampleHost runOnce unconnectedSiteConfig oneDeployResult.

(** A node whose deployments come from GitHub. *)
Definition gitHubItem : @DeploymentsTreeItem sampleJs sampleTypes :=
  {| parent := "webApp" : @AzExtParentTreeItem sampleJs sampleTypes;
     label := "Deployments"; childTypeLabel := "Deployment";
     site := "my-site" : @ParsedSite sampleJs sampleTypes;
     suppressMaskLabel := true;
     contextValuesToAdd := ["slot"; "appService"; "slot"];
     _scmType := Some "GitHub";
     _repoUrl := Some "https://github.com/org/repo" |}.

(** The same node with its added context values in another order. *)
Definition gitHubItemReordered : @DeploymentsTreeItem sampleJs sampleTypes :=
  {| parent := "webApp" : @AzExtParentTreeItem sampleJs sampleTypes;
     label := "Deployments"; childTypeLabel := "Deployment";
     site := "my-site" : @ParsedSite sampleJs sampleTypes;
     suppressMaskLabel := true;
     contextValuesToAdd := ["appService"; "slot"];
     _scmType := Some "GitHub";
     _repoUrl := Some "https://github.com/org/repo" |}.

Definition deployResultsUnavailable (history : list SdkCall)
  : Outcome string (list (option string)) := Thrown "500".

(** The site answers, Kudu does not, and the helper retries. *)
Definition kuduDownHost : @AppServiceHost sampleJs sampleTypes :=
  sampleHost retryThrice unconnectedSiteConfig deployResultsUnavailable.

(** The item shown for a deploy result whose tree item could not be
    made. *)
Definition sampleInvalidItem : @InvalidTreeItem sampleJs sampleTypes :=
  {| invalid_parent := gitHubItem;
     invalid_error := "Invalid deployment" : @unknown sampleJs;
     invalid_label := "0123456";
     invalid_contextValue := "invalidDeployment";
     invalid_description := None |}.

(** * Properties *)

(** ** Running a computation *)

Lemma await_run {S E A B} (m : Async S E A) (k : A -> Async S E B) (s : S) :
  await m k s
  = match m s with
    | (s', Returned a) => k a s'
    | (s', Thrown e) => (s', Thrown e)
    end.
Proof. reflexivity. Qed.

Lemma getState_run {S E} (s : S) : @getState S E s = (s, Returned s).
Proof. reflexivity. Qed.

(** ** Rounding to a double *)

Lemma roundDouble_exact (z : Z) :
  (Z.abs z < 2 ^ 53)%Z -> roundDouble z = z.
Proof.
  intros Hlt. unfold roundDouble.
  destruct (Z.leb_spec (Z.log2 (Z.abs z) - 52) 0%Z) as [_ | Hk]; [reflexivity |].
  exfalso.
  assert (0 < Z.abs z)%Z as Hpos.
  { destruct (Z.eq_dec (Z.abs z) 0%Z) as [H0 | Hne]; [| lia].
    rewrite H0 in Hk. simpl in Hk. lia. }
  apply (Z.log2_lt_pow2 _ 53%Z Hpos) in Hlt. lia.
Qed.

(** Beyond 53 bits the rounded magnitude is still positive. *)
Lemma roundDouble_magnitude (a k : Z) :
  (0 < a)%Z -> (0 < k)%Z -> k = (Z.log2 a - 52)%Z ->
  (0 < (if (2 ^ (k - 1) <? a mod 2 ^ k)%Z
           || ((a mod 2 ^ k =? 2 ^ (k - 1))%Z && Z.odd (a / 2 ^ k))
        then a / 2 ^ k + 1 else a / 2 ^ k) * 2 ^ k)%Z.
Proof.
  intros Ha Hk Hdef.
  assert (0 < 2 ^ k)%Z as Hpow by (apply Z.pow_pos_nonneg; lia).
  assert (2 ^ k <= a)%Z as Hle.
  { destruct (Z.log2_spec a Ha) as [Hlow _].
    etrans; [| exact Hlow]. apply Z.pow_le_mono_r; lia. }
  assert (1 <= a / 2 ^ k)%Z as Hq
    by (apply Z.div_le_lower_bound; lia).
  destruct (_ || _); nia.
Qed.

Lemma roundDouble_sign (z : Z) :
  ((roundDouble z < 0 ↔ z < 0) ∧ (roundDouble z = 0 ↔ z = 0)
   ∧ (0 < roundDouble z ↔ 0 < z))%Z.
Proof.
  unfold roundDouble.
  destruct (Z.leb_spec (Z.log2 (Z.abs z) - 52) 0%Z) as [_ | Hk]; [lia |].
  assert (0 < Z.abs z)%Z as Hpos.
  { destruct (Z.eq_dec (Z.abs z) 0%Z) as [H0 | Hne]; [| lia].
    rewrite H0 in Hk. simpl in Hk. lia. }
  pose proof (roundDouble_magnitude (Z.abs z) _ Hpos Hk eq_refl) as Hm.
  cbv zeta. destruct (Z.sgn_spec z) as [[Hz ->] | [[Hz ->] | [Hz ->]]]; lia.
Qed.

Lemma roundDouble_near (z : Z) :
  (Z.abs z < 2 ^ 54)%Z -> (Z.abs (roundDouble z - z) <= 1)%Z.
Proof.
  intros Hlt.
  destruct (Z.lt_ge_cases (Z.abs z) (2 ^ 53)%Z) as [Hsmall | Hbig].
  { rewrite (roundDouble_exact z Hsmall). lia. }
  assert (Z.log2 (Z.abs z) = 53)%Z as Hlog
    by (apply Z.log2_unique; [lia | split; [exact Hbig | exact Hlt]]).
  unfold roundDouble. rewrite Hlog.
  change (53 - 52)%Z with 1%Z. change (1 <=? 0)%Z with false.
  change (2 ^ (1 - 1))%Z with 1%Z. change (2 ^ 1)%Z with 2%Z. cbv iota zeta.
  pose proof (Z.div_mod (Z.abs z) 2%Z ltac:(lia)) as Hdm.
  pose proof (Z.mod_pos_bound (Z.abs z) 2%Z ltac:(lia)) as Hr.
  destruct (Z.sgn_spec z) as [[Hz Hs] | [[Hz Hs] | [Hz Hs]]]; rewrite Hs;
    destruct (_ || _) eqn:Hround; try lia;
    apply orb_false_iff in Hround || apply orb_true_iff in Hround;
    lia.
Qed.

(** ** Context values *)

Example createContextValue_sample :
  createContextValue ["deploymentsConnected"; "azFunc"; "slot"; "azFunc"]
  = "azFunc;deploymentsConnected;slot".
Proof. vm_compute. reflexivity. Qed.

Example createContextValue_empty : createContextValue [] = "".
Proof. reflexivity. Qed.

Lemma contextTags_elem_of (values : list string) (t : string) :
  t ∈ contextTags values ↔ t ∈ values.
Proof.
  unfold contextTags.
  rewrite (merge_sort_Permutation String.le (remove_dups values)).
  apply elem_of_remove_dups.
Qed.

Lemma contextTags_NoDup (values : list string) : NoDup (contextTags values).
Proof.
  unfold contextTags.
  rewrite (merge_sort_Permutation String.le (remove_dups values)).
  apply NoDup_remove_dups.
Qed.

Lemma contextTags_sorted (values : list string) :
  StronglySorted String.le (contextTags values).
Proof. unfold contextTags. apply StronglySorted_merge_sort; apply _. Qed.

(** Sorted, duplicate-free and with the same members: there is one such
    list, so the tags do not depend on the order or the repetitions of
    the input. *)
Lemma contextTags_unique (values tags : list string) :
  NoDup tags -> Sorted String.le tags -> (∀ t, t ∈ tags ↔ t ∈ values) ->
  contextTags values = tags.
Proof.
  intros Hnd Hs Hel.
  apply (Sorted_unique String.le).
  - apply StronglySorted_Sorted, contextTags_sorted.
  - exact Hs.
  - apply NoDup_Permutation; [apply contextTags_NoDup | exact Hnd |].
    intros t. rewrite contextTags_elem_of. symmetry. apply Hel.
Qed.

Section ContextValueProperties.
Context `{AppServiceHost}.

(** C1. For every list of tag strings, [createContextValue] returns the
    semicolon-joined list of tags that has no duplicates, is sorted, and
    has exactly the input's members; the [contextValue] getter of a
    [DeploymentsTreeItem] is that string for its base tag together with
    [contextValuesToAdd]. *)
Theorem createContextValue_deduped_sorted_joined :
  (∀ values : list string,
     ∃ tags : list string,
       createContextValue values = String.concat ";" tags
       ∧ NoDup tags
       ∧ StronglySorted String.le tags
       ∧ ∀ t, t ∈ tags ↔ t ∈ values)
  ∧ (∀ ti : DeploymentsTreeItem,
       ∃ tags : list string,
         contextValue ti = String.concat ";" tags
         ∧ NoDup tags
         ∧ StronglySorted String.le tags
         ∧ ∀ t, t ∈ tags ↔ t = contextValueBase ti ∨ t ∈ contextValuesToAdd ti).
Proof.
  split.
  - intros values. exists (contextTags values).
    split; [reflexivity |].
    split; [apply contextTags_NoDup |].
    split; [apply contextTags_sorted |].
    apply contextTags_elem_of.
  - intros ti.
    exists (contextTags (contextValueBase ti :: contextValuesToAdd ti)).
    split; [reflexivity |].
    split; [apply contextTags_NoDup |].
    split; [apply contextTags_sorted |].
    intros t. rewrite contextTags_elem_of. apply elem_of_cons.
Qed.

Lemma contextValueBase_cases (ti : DeploymentsTreeItem) :
  (_scmType ti = Some ScmType_None
   ∧ contextValueBase ti = contextValueUnconnected)
  ∨ (_scmType ti ≠ Some ScmType_None
     ∧ contextValueBase ti = contextValueConnected).
Proof.
  unfold contextValueBase, scmType_is_None.
  case_bool_decide; [left | right]; split; auto.
Qed.

(** C7. The getter's base tag is 'deploymentsUnconnected' exactly when
    the stored scmType is [ScmType.None], and 'deploymentsConnected' for
    every other stored value, [undefined] included; a freshly constructed
    item has no scmType and so reports itself as connected. *)
Theorem contextValue_base_tag :
  (∀ ti : DeploymentsTreeItem,
     contextValue ti
     = createContextValue (contextValueBase ti :: contextValuesToAdd ti)
     ∧ (contextValueBase ti = "deploymentsUnconnected"
        ↔ _scmType ti = Some ScmType_None)
     ∧ (contextValueBase ti = "deploymentsConnected"
        ↔ _scmType ti ≠ Some ScmType_None))
  ∧ (∀ (parent0 : AzExtParentTreeItem) (options : DeploymentsTreeItemOptions),
       _scmType (new_DeploymentsTreeItem parent0 options) = None
       ∧ contextValueBase (new_DeploymentsTreeItem parent0 options)
         = "deploymentsConnected").
Proof.
  split.
  - intros ti. split; [reflexivity |].
    destruct (contextValueBase_cases ti) as [[Hs Hb] | [Hs Hb]];
      rewrite Hb; unfold contextValueUnconnected, contextValueConnected;
      split; split; intros; try done.
  - intros parent0 options. split; [reflexivity |].
    destruct (contextValueBase_cases (new_DeploymentsTreeItem parent0 options))
      as [[Hs Hb] | [Hs Hb]]; [discriminate Hs | exact Hb].
Qed.

End ContextValueProperties.

(** ** Site commands *)

Example handleSiteErrors_503 :
  @handleSiteErrors sampleJs sampleSiteCommandHost "503" sampleContext
  = (set_suppressReportIssue true sampleContext,
     Thrown (NewError
       "Request failed View troubleshooting tips [here](https://aka.ms/AA772mm).")).
Proof. reflexivity. Qed.

Example handleSiteErrors_404 :
  @handleSiteErrors sampleJs sampleSiteCommandHost "404" sampleContext
  = (sampleContext, Thrown (Rethrown ("404" : @unknown sampleJs))).
Proof. reflexivity. Qed.

Section SiteCommandProperties.
Context `{SiteCommandHost}.

Lemma handleSiteErrors_friendly (error : unknown) (context : IActionContext) :
  is502or503 error ->
  handleSiteErrors error context
  = (set_suppressReportIssue true context,
     Thrown (NewError
       (message (parseError error) +:+ " " +:+
        localize "502or503Troubleshooting"
          "View troubleshooting tips [here](https://aka.ms/AA772mm)."))).
Proof.
  intros [Ht | Ht]; unfold handleSiteErrors; rewrite Ht; reflexivity.
Qed.

Lemma handleSiteErrors_rethrow (error : unknown) (context : IActionContext) :
  ¬ is502or503 error ->
  handleSiteErrors error context = (context, Thrown (Rethrown error)).
Proof.
  intros Hn. unfold handleSiteErrors.
  destruct (String.eqb_spec (errorType (parseError error)) "502") as [E1 | _].
  { exfalso. apply Hn. left. exact E1. }
  destruct (String.eqb_spec (errorType (parseError error)) "503") as [E2 | _].
  { exfalso. apply Hn. right. exact E2. }
  reflexivity.
Qed.

(** What the registered callback does once the wrapped one has thrown. *)
Lemma siteCommandCallback_thrown (callback : CommandCallback unknown)
    (args : list any) (context context' : IActionContext) (error : unknown) :
  callback args context = (context', Thrown error) ->
  siteCommandCallback callback args context
  = match handleSiteErrors error context' with
    | (context'', Returned _) => (context'', Returned undefined)
    | (context'', Thrown e) => (context'', Thrown e)
    end.
Proof.
  intros Hc. unfold siteCommandCallback, tryCatch, await.
  rewrite Hc. destruct (handleSiteErrors error context') as [c [u | e]];
    reflexivity.
Qed.

(** C2. When the callback wrapped by [registerSiteCommand] throws an error
    whose parsed errorType is '502' or '503', the registered callback
    sets [context.errorHandling.suppressReportIssue] to true and throws a
    new error whose message is the parsed message, a space and the
    troubleshooting-tips link; for any other errorType it throws the
    caught error itself and leaves the context as the callback left
    it. *)
Theorem registerSiteCommand_502_503_message
    (commandId : string) (callback : CommandCallback unknown)
    (debounce : option Z) (args : list any)
    (context context' : IActionContext) (error : unknown) :
  callback args context = (context', Thrown error) ->
  let registered := reg_callback (registerSiteCommand commandId callback debounce) in
  (is502or503 error ->
     registered args context
     = (set_suppressReportIssue true context',
        Thrown (NewError
          (message (parseError error) +:+ " " +:+
           localize "502or503Troubleshooting"
             "View troubleshooting tips [here](https://aka.ms/AA772mm).")))
     ∧ suppressReportIssue (errorHandling (registered args context).1)
       = Some true)
  ∧ (¬ is502or503 error ->
       registered args context = (context', Thrown (Rethrown error))).
Proof.
  intros Hc registered. subst registered. simpl.
  rewrite (siteCommandCallback_thrown _ _ _ _ _ Hc).
  split.
  - intros H5. rewrite (handleSiteErrors_friendly _ _ H5). split; reflexivity.
  - intros Hn. rewrite (handleSiteErrors_rethrow _ _ Hn). reflexivity.
Qed.

(** C5. After a failure of the wrapped callback the registered callback
    always throws, never returns: the caught error itself when its
    parsed errorType is neither '502' nor '503', the troubleshooting
    error otherwise. When the wrapped callback returns, its result and
    the context it left are returned unchanged. *)
Theorem registerSiteCommand_rethrows
    (commandId : string) (callback : CommandCallback unknown)
    (debounce : option Z) (args : list any) (context : IActionContext) :
  let registered := reg_callback (registerSiteCommand commandId callback debounce) in
  match callback args context with
  | (context', Returned result) =>
      registered args context = (context', Returned result)
  | (context', Thrown error) =>
      (∀ result, (registered args context).2 ≠ Returned result)
      ∧ (registered args context).2
        = Thrown
            (if decide (is502or503 error)
             then NewError
                    (message (parseError error) +:+ " " +:+
                     localize "502or503Troubleshooting"
                       "View troubleshooting tips [here](https://aka.ms/AA772mm).")
             else Rethrown error)
  end.
Proof.
  intros registered. subst registered. simpl.
  destruct (callback args context) as [context' [result | error]] eqn:Hc.
  - unfold siteCommandCallback, tryCatch. rewrite Hc. reflexivity.
  - rewrite (siteCommandCallback_thrown _ _ _ _ _ Hc).
    destruct (decide (is502or503 error)) as [H5 | Hn].
    + rewrite (handleSiteErrors_friendly _ _ H5). simpl. split; [| reflexivity].
      intros result. discriminate.
    + rewrite (handleSiteErrors_rethrow _ _ Hn). simpl. split; [| reflexivity].
      intros result. discriminate.
Qed.

End SiteCommandProperties.

Lemma registerSiteCommand_502_503_message_witness :
  sampleCallback [Some 502%Z] sampleContext = (sampleContext, Thrown "502")
  ∧ @is502or503 sampleJs sampleSiteCommandHost "502"
  ∧ reg_callback
      (@registerSiteCommand sampleJs sampleSiteCommandHost "appService.Restart"
         sampleCallback None)
      [Some 502%Z] sampleContext
    = (set_suppressReportIssue true sampleContext,
       Thrown (NewError
         "Request failed View troubleshooting tips [here](https://aka.ms/AA772mm).")).
Proof.
  split; [reflexivity |].
  split; [left; reflexivity |].
  apply (@registerSiteCommand_502_503_message sampleJs sampleSiteCommandHost
           "appService.Restart" sampleCallback None [Some 502%Z]
           sampleContext sampleContext "502" eq_refl).
  left. reflexivity.
Defined.

(** ** The deployments node: SDK calls *)

Example loadMoreChildrenImpl_steady :
  (@loadMoreChildrenImpl sampleJs sampleTypes steadyHost false sampleContext
     (sampleState steadyHost)).2
  = Returned [@ofDeploymentTreeItem sampleJs sampleTypes
                (Some 1700000000000%Z)].
Proof. reflexivity. Qed.

Example loadMoreChildrenImpl_retrying_calls :
  calls (@loadMoreChildrenImpl sampleJs sampleTypes retryingHost false sampleContext
           (sampleState retryingHost)).1
  = [CreateClient; GetSiteConfig; GetSourceControl; CreateClient;
     GetDeployResults; GetDeployResults].
Proof. reflexivity. Qed.

Example loadMoreChildrenImpl_unavailable_calls :
  @loadMoreChildrenImpl sampleJs sampleTypes unavailableHost false sampleContext
    (sampleState unavailableHost)
  = ({| this := sampleItem unavailableHost;
        calls := [CreateClient; GetSiteConfig] |}, Thrown "503").
Proof. reflexivity. Qed.

Section DeploymentsTreeItemProperties.
Context `{AppServiceHost}.

Lemma getDeployResultsCalls_snoc (ti ti' : DeploymentsTreeItem)
    (history : list SdkCall) (c : SdkCall) :
  getDeployResultsCalls {| this := ti'; calls := history ++ [c] |}
  = (getDeployResultsCalls {| this := ti; calls := history |}
     + if decide (c = GetDeployResults) then 1 else 0)%nat.
Proof.
  unfold getDeployResultsCalls. simpl.
  rewrite filter_app, length_app. f_equal.
  rewrite filter_cons, filter_nil.
  destruct (decide (c = GetDeployResults)); reflexivity.
Qed.

Lemma getDeployResultsCalls_set_scmType (v : option string) (s : TreeState) :
  getDeployResultsCalls (set_scmType v s) = getDeployResultsCalls s.
Proof. reflexivity. Qed.

Lemma getDeployResultsCalls_set_repoUrl (v : option string) (s : TreeState) :
  getDeployResultsCalls (set_repoUrl v s) = getDeployResultsCalls s.
Proof. reflexivity. Qed.

Lemma sdkCall_state {A} (c : SdkCall)
    (respond : list SdkCall -> Outcome unknown A) (s : TreeState) :
  sdkCall c respond s
  = ({| this := this s; calls := calls s ++ [c] |}, respond (calls s)).
Proof. reflexivity. Qed.

(** Each run of the callback handed to [retryKuduCall] makes one call. *)
Lemma getDeployResultsCallback_calls (client : SiteClient)
    (context : IActionContext) (s : TreeState) :
  getDeployResultsCalls (getDeployResultsCallback client context s).1
  = S (getDeployResultsCalls s).
Proof.
  unfold getDeployResultsCallback. rewrite sdkCall_state. simpl.
  rewrite (getDeployResultsCalls_snoc (this s)).
  destruct s as [ti history]. simpl. lia.
Qed.

(** The body shared by [init] and [refreshImpl], case by case. *)
Lemma init_cases (context : IActionContext) (s : TreeState) :
  let s' := (init context s).1 in
  sameOtherFields (this s) (this s')
  ∧ getDeployResultsCalls s' = getDeployResultsCalls s
  ∧ match (init context s).2 with
    | Returned _ =>
        ∃ client siteConfig sourceControl,
          createClient (site (this s)) context (calls s) = Returned client
          ∧ getSiteConfig client (calls s ++ [CreateClient])
            = Returned siteConfig
          ∧ getSourceControl client
              ((calls s ++ [CreateClient]) ++ [GetSiteConfig])
            = Returned sourceControl
          ∧ _scmType (this s') = scmType siteConfig
          ∧ _repoUrl (this s') = repoUrl sourceControl
    | Thrown _ =>
        _scmType (this s') = _scmType (this s)
        ∧ _repoUrl (this s') = _repoUrl (this s)
    end.
Proof.
  destruct s as [ti history].
  unfold init, await, getState, modifyState, sdkCall, sameOtherFields. simpl.
  destruct (createClient (site ti) context history) as [client | e] eqn:Hc;
    simpl.
  2: { rewrite (getDeployResultsCalls_snoc ti). simpl.
       repeat split; auto with lia. }
  destruct (getSiteConfig client (history ++ [CreateClient]))
    as [siteConfig | e] eqn:Hg; simpl.
  2: { rewrite !(getDeployResultsCalls_snoc ti). simpl.
       repeat split; auto with lia. }
  destruct (getSourceControl client
              ((history ++ [CreateClient]) ++ [GetSiteConfig]))
    as [sourceControl | e] eqn:Hs; simpl.
  2: { rewrite !(getDeployResultsCalls_snoc ti). simpl.
       repeat split; auto with lia. }
  rewrite getDeployResultsCalls_set_repoUrl, getDeployResultsCalls_set_scmType.
  rewrite !(getDeployResultsCalls_snoc ti). simpl.
  split; [repeat split |].
  split; [lia |].
  exists client, siteConfig, sourceControl. repeat split; assumption.
Qed.

Lemma refreshImpl_init (context : IActionContext) :
  refreshImpl context = init context.
Proof. reflexivity. Qed.

(** C9. [init] and [refreshImpl] leave site, label, childTypeLabel,
    contextValuesToAdd, suppressMaskLabel and parent as they were; when
    they return, [_scmType] is the fetched site config's scmType and
    [_repoUrl] the fetched source control's repoUrl, and when they throw,
    these two fields are unchanged as well. *)
Theorem init_refreshImpl_frame (context : IActionContext) (s : TreeState) :
  (let s' := (init context s).1 in
   sameOtherFields (this s) (this s')
   ∧ match (init context s).2 with
     | Returned _ =>
         ∃ client siteConfig sourceControl,
           createClient (site (this s)) context (calls s) = Returned client
           ∧ getSiteConfig client (calls s ++ [CreateClient])
             = Returned siteConfig
           ∧ getSourceControl client
               ((calls s ++ [CreateClient]) ++ [GetSiteConfig])
             = Returned sourceControl
           ∧ _scmType (this s') = scmType siteConfig
           ∧ _repoUrl (this s') = repoUrl sourceControl
     | Thrown _ =>
         _scmType (this s') = _scmType (this s)
         ∧ _repoUrl (this s') = _repoUrl (this s)
     end)
  ∧ refreshImpl context s = init context s.
Proof.
  split; [| reflexivity].
  destruct (init_cases context s) as (Hframe & _ & Hfields).
  split; assumption.
Qed.

(** The node reaches [getDeployResults] through [retryKuduCall] only:
    the state it ends in, SDK calls included, is the one that helper
    leaves. *)
Lemma loadMoreChildrenImpl_delegates (clearCache : bool)
    (context : IActionContext) (s : TreeState) :
  match init context s with
  | (s1, Thrown e) => loadMoreChildrenImpl clearCache context s = (s1, Thrown e)
  | (s1, Returned _) =>
      let s2 := {| this := this s1; calls := calls s1 ++ [CreateClient] |} in
      match createClient (site (this s1)) context (calls s1) with
      | Thrown e =>
          loadMoreChildrenImpl clearCache context s = (s2, Thrown e)
      | Returned client =>
          (loadMoreChildrenImpl clearCache context s).1
          = (retryKuduCall _ context "getDeployResults"
               (getDeployResultsCallback client context) s2).1
      end
  end.
Proof.
  unfold loadMoreChildrenImpl. rewrite await_run.
  destruct (init context s) as [s1 [[] | e]]; [| reflexivity].
  rewrite await_run, getState_run, await_run, sdkCall_state.
  destruct (createClient (site (this s1)) context (calls s1)) as [client | e];
    [| reflexivity].
  cbv zeta. rewrite await_run.
  destruct (retryKuduCall (list DeployResult) context "getDeployResults"
              (getDeployResultsCallback client context)
              {| this := this s1; calls := calls s1 ++ [CreateClient] |})
    as [s3 [deployments | e]]; [| reflexivity].
  rewrite await_run, getState_run, await_run.
  unfold liftOutcome at 1.
  destruct (createTreeItemsWithErrorHandling _ _ _ _ _ _); [| reflexivity].
  rewrite await_run, getState_run.
  destruct (scmType_is_None (this s3)); reflexivity.
Qed.

(** C3, as the code has it. [loadMoreChildrenImpl] does not call
    [getDeployResults] itself. [init] and the second [createClient] make
    no such call, and when one of them throws the load throws that error
    without one. Otherwise the call is handed to the repository's
    [retryKuduCall] helper as a callback that makes one call each time
    it is run, and the load ends in the state that helper leaves, with
    its error when it throws: the [getDeployResults] calls of a load are
    those of the helper. *)
Theorem loadMoreChildrenImpl_getDeployResults_calls (clearCache : bool)
    (context : IActionContext) (s : TreeState) :
  (∀ (client : SiteClient) (ctx : IActionContext) (s0 : TreeState),
     getDeployResultsCallback client ctx s0
     = ({| this := this s0; calls := calls s0 ++ [GetDeployResults] |},
        getDeployResults client ctx (calls s0))
     ∧ getDeployResultsCalls (getDeployResultsCallback client ctx s0).1
       = S (getDeployResultsCalls s0))
  ∧ match init context s with
    | (s1, Thrown e) =>
        loadMoreChildrenImpl clearCache context s = (s1, Thrown e)
        ∧ getDeployResultsCalls s1 = getDeployResultsCalls s
    | (s1, Returned _) =>
        let s2 := {| this := this s1; calls := calls s1 ++ [CreateClient] |} in
        getDeployResultsCalls s2 = getDeployResultsCalls s
        ∧ match createClient (site (this s1)) context (calls s1) with
          | Thrown e =>
              loadMoreChildrenImpl clearCache context s = (s2, Thrown e)
          | Returned client =>
              match retryKuduCall _ context "getDeployResults"
                      (getDeployResultsCallback client context) s2 with
              | (s3, Thrown e) =>
                  loadMoreChildrenImpl clearCache context s = (s3, Thrown e)
              | (s3, Returned _) =>
                  (loadMoreChildrenImpl clearCache context s).1 = s3
              end
          end
    end.
Proof.
  split.
  { intros client ctx s0. split; [reflexivity |].
    apply getDeployResultsCallback_calls. }
  destruct (init_cases context s) as (_ & Hcalls & _).
  unfold loadMoreChildrenImpl. rewrite await_run.
  destruct (init context s) as [s1 [[] | e]]; simpl in Hcalls;
    [| split; [reflexivity | exact Hcalls]].
  cbv zeta. split.
  { rewrite (getDeployResultsCalls_snoc (this s1)). simpl.
    destruct s1; simpl in *. lia. }
  rewrite await_run, getState_run, await_run, sdkCall_state.
  destruct (createClient (site (this s1)) context (calls s1)) as [client | e];
    [| reflexivity].
  rewrite await_run.
  destruct (retryKuduCall (list DeployResult) context "getDeployResults"
              (getDeployResultsCallback client context)
              {| this := this s1; calls := calls s1 ++ [CreateClient] |})
    as [s3 [deployments | e]]; [| reflexivity].
  rewrite await_run, getState_run, await_run.
  unfold liftOutcome at 1.
  destruct (createTreeItemsWithErrorHandling _ _ _ _ _ _); [| reflexivity].
  rewrite await_run, getState_run.
  destruct (scmType_is_None (this s3)); reflexivity.
Qed.

(** ** The deployments node: order of the children *)

Lemma compareChildrenImpl_deployments (d1 d2 : DeploymentTreeItem) :
  compareChildrenImpl (ofDeploymentTreeItem d1) (ofDeploymentTreeItem d2)
  = Returned (jsSubtract (receivedTime d2) (receivedTime d1)).
Proof. reflexivity. Qed.

(** The difference of two valid dates: never more than one off, exact
    below 2^53 in magnitude, and of the sign of the exact difference. *)
Lemma jsSubtract_valid (d1 d2 : DeploymentTreeItem) (t1 t2 : Z) :
  receivedTime d1 = Some t1 -> receivedTime d2 = Some t2 ->
  ∃ n : Z,
    jsSubtract (receivedTime d2) (receivedTime d1) = JsInt n
    ∧ ((n < 0 ↔ t2 < t1) ∧ (n = 0 ↔ t2 = t1) ∧ (0 < n ↔ t1 < t2))%Z
    ∧ (Z.abs (n - (t2 - t1)) <= 1)%Z
    ∧ (n = (t2 - t1)%Z ∨ (2 ^ 53 <= Z.abs (t2 - t1))%Z).
Proof.
  intros H1' H2'. exists (roundDouble (t2 - t1)).
  rewrite H1', H2'. split; [reflexivity |].
  pose proof (receivedTime_clipped d1 t1 H1') as Hc1.
  pose proof (receivedTime_clipped d2 t2 H2') as Hc2.
  unfold maxTimeValue in Hc1, Hc2.
  pose proof (roundDouble_sign (t2 - t1)) as Hsign.
  split; [lia |]. split.
  - apply roundDouble_near. change (2 ^ 54)%Z with 18014398509481984%Z. lia.
  - destruct (Z.lt_ge_cases (Z.abs (t2 - t1)) (2 ^ 53)%Z) as [Hlt | Hge];
      [left; by apply roundDouble_exact | right; exact Hge].
Qed.

(** C8, as the code has it. Among children that are generic or
    deployment items, [compareChildrenImpl] returns 1 whenever the first
    child is a [GenericTreeItem], also when the second is one too; -1
    when only the second is; and otherwise the number
    [ti2.receivedTime.valueOf() - ti1.receivedTime.valueOf()]. For two
    valid dates that number is the difference of the time values, exact
    below 2^53 in magnitude and never more than one off, and of the sign
    of the exact difference; so deployments with valid dates are ordered
    most recent first, and a generic item comes after every
    deployment. *)
Theorem compareChildrenImpl_order :
  (∀ (g : GenericTreeItem) (c2 : AzExtTreeItem),
     compareChildrenImpl (ofGenericTreeItem g) c2 = Returned (JsInt 1))
  ∧ (∀ (d : DeploymentTreeItem) (g : GenericTreeItem),
       compareChildrenImpl (ofDeploymentTreeItem d) (ofGenericTreeItem g)
       = Returned (JsInt (-1)))
  ∧ (∀ d1 d2 : DeploymentTreeItem,
       compareChildrenImpl (ofDeploymentTreeItem d1) (ofDeploymentTreeItem d2)
       = Returned (jsSubtract (receivedTime d2) (receivedTime d1)))
  ∧ (∀ d1 d2 : DeploymentTreeItem,
       match receivedTime d1, receivedTime d2 with
       | Some t1, Some t2 =>
           ∃ n : Z,
             compareChildrenImpl (ofDeploymentTreeItem d1)
               (ofDeploymentTreeItem d2)
             = Returned (JsInt n)
             ∧ ((n < 0 ↔ t2 < t1) ∧ (n = 0 ↔ t2 = t1) ∧ (0 < n ↔ t1 < t2))%Z
             ∧ (Z.abs (n - (t2 - t1)) <= 1)%Z
             ∧ (n = (t2 - t1)%Z ∨ (2 ^ 53 <= Z.abs (t2 - t1))%Z)
       | _, _ =>
           compareChildrenImpl (ofDeploymentTreeItem d1)
             (ofDeploymentTreeItem d2)
           = Returned JsNaN
       end)
  ∧ (∀ (d : DeploymentTreeItem) (g : GenericTreeItem),
       inChildOrder (ofDeploymentTreeItem d) (ofGenericTreeItem g)
       ∧ ¬ inChildOrder (ofGenericTreeItem g) (ofDeploymentTreeItem d)).
Proof.
  split; [reflexivity |].
  split; [reflexivity |].
  split; [reflexivity |].
  split.
  - intros d1 d2. rewrite compareChildrenImpl_deployments.
    destruct (receivedTime d1) as [t1 |] eqn:H1';
      destruct (receivedTime d2) as [t2 |] eqn:H2'; try reflexivity.
    destruct (jsSubtract_valid d1 d2 t1 t2 H1' H2') as (n & Hn & Hrest).
    exists n. rewrite H1', H2' in Hn. rewrite Hn. split; [reflexivity | exact Hrest].
  - intros d g. split.
    + exists (-1)%Z. split; [reflexivity | lia].
    + intros (n & Hn & Hle). simpl in Hn. injection Hn as <-. lia.
Qed.

End DeploymentsTreeItemProperties.

(** The claim that every invocation makes exactly one [getDeployResults]
    call, with no retry helper of the repository around it, fails both
    ways. With a [retryKuduCall] that runs its callback again after a
    failure, a first call that Kudu resets is followed by a second. And
    whatever the helper, an invocation whose [init] throws makes no such
    call at all. *)
Lemma loadMoreChildrenImpl_not_exactly_once :
  @getDeployResultsCalls sampleJs sampleTypes
    (@loadMoreChildrenImpl sampleJs sampleTypes retryingHost false
       sampleContext (sampleState retryingHost)).1
  = 2
  ∧ @getDeployResultsCalls sampleJs sampleTypes
      (@loadMoreChildrenImpl sampleJs sampleTypes unavailableHost false
         sampleContext (sampleState unavailableHost)).1
    = 0.
Proof. split; reflexivity. Qed.

(** The claim fails on the other children and dates the comparator can
    meet. Against an invalid item, which has no [receivedTime], the
    comparison throws instead of returning a number; for a deployment
    whose date is invalid it returns NaN, neither negative nor positive;
    and a difference beyond 2^53 is rounded, here up by one. *)
Lemma compareChildrenImpl_not_every_pair :
  @compareChildrenImpl sampleJs sampleTypes
    (@ofDeploymentTreeItem sampleJs sampleTypes (Some 1700000000000%Z))
    (@ofInvalidTreeItem sampleJs sampleTypes sampleInvalidItem)
  = Thrown TypeError
  ∧ @compareChildrenImpl sampleJs sampleTypes
      (@ofDeploymentTreeItem sampleJs sampleTypes None)
      (@ofDeploymentTreeItem sampleJs sampleTypes (Some 1700000000000%Z))
    = Returned JsNaN
  ∧ @compareChildrenImpl sampleJs sampleTypes
      (@ofDeploymentTreeItem sampleJs sampleTypes (Some (-8640000000000000)%Z))
      (@ofDeploymentTreeItem sampleJs sampleTypes (Some 8639999999999999%Z))
    = Returned (JsInt 17280000000000000)
  ∧ (8639999999999999 - -8640000000000000 = 17279999999999999)%Z.
Proof. repeat split; reflexivity. Qed.

(** ** The stale-closer action *)

(** C6. action.yml declares an [inputs] mapping with the token, the day
    thresholds, the comment texts, the upvote and comment thresholds, the
    candidate milestone, the two label settings and the dry-run flag, and
    no [outputs] key. The label settings and the dry-run flag are not
    required, and the token has a default. *)
Theorem action_yml_inputs_no_outputs :
  yaml_keys action_yml = ["name"; "description"; "inputs"; "runs"]
  ∧ action_outputs = None
  ∧ action_inputs.*1
    = ["token"; "closeDays"; "closeComment"; "warnDays"; "warnComment";
       "upvotesRequired"; "numCommentsOverride"; "candidateMilestone";
       "labelsToExclude"; "staleLabel"; "readonly"]
  ∧ required_inputs
    = ["closeDays"; "closeComment"; "warnDays"; "warnComment";
       "upvotesRequired"; "numCommentsOverride"; "candidateMilestone"]
  ∧ (assoc_get "token" action_inputs ≫= yaml_get "default")
    = Some (YScalar "${{ github.token }}").
Proof. repeat split; reflexivity. Qed.

Example staleCloser_sample :
  issue_number <$> staleCloser sampleInputs
                     [quietIssue; upvotedIssue; plannedIssue]
  = [41%Z].
Proof. reflexivity. Qed.

(** C4. For every issue of a run that is in the candidate milestone, the
    stale-closer closes it exactly when its upvotes are below
    [upvotesRequired] and its age exceeds [closeDays]. *)
Theorem staleCloser_closes_exactly_when (inputs : StaleCloserInputs)
    (issues : list Issue) (issue : Issue) :
  issue ∈ issues ->
  isCandidate inputs issue = true ->
  issue ∈ staleCloser inputs issues
  ↔ (issue_upvotes issue < upvotesRequired inputs)%Z
    ∧ (closeDays inputs < issue_ageDays issue)%Z.
Proof.
  intros Hin Hcand. unfold staleCloser.
  rewrite list_elem_of_filter, Hcand. unfold closesIssue. simpl.
  rewrite andb_true_iff, !Z.ltb_lt. tauto.
Qed.

Lemma staleCloser_closes_exactly_when_witness :
  quietIssue ∈ [quietIssue; upvotedIssue; plannedIssue]
  ∧ isCandidate sampleInputs quietIssue = true
  ∧ (quietIssue ∈ staleCloser sampleInputs
                    [quietIssue; upvotedIssue; plannedIssue]
     ↔ (issue_upvotes quietIssue < upvotesRequired sampleInputs)%Z
       ∧ (closeDays sampleInputs < issue_ageDays quietIssue)%Z).
Proof.
  assert (quietIssue ∈ [quietIssue; upvotedIssue; plannedIssue]) as Hin
    by (left; reflexivity).
  split; [exact Hin |].
  split; [reflexivity |].
  apply (staleCloser_closes_exactly_when sampleInputs
           [quietIssue; upvotedIssue; plannedIssue] quietIssue Hin).
  reflexivity.
Defined.

(** * Further properties of the code *)

(** ** Strings *)

Lemma string_cons_app (c : Ascii.ascii) (s1 s2 : string) :
  String c s1 +:+ s2 = String c (s1 +:+ s2).
Proof. reflexivity. Qed.

Lemma string_length_app (s1 s2 : string) :
  String.length (s1 +:+ s2) = String.length s1 + String.length s2.
Proof. induction s1 as [| c s1 IH]; simpl; [reflexivity | by rewrite IH]. Qed.

Lemma substring_whole (s : string) : String.substring 0 (String.length s) s = s.
Proof. induction s as [| c s IH]; simpl; [reflexivity | by rewrite IH]. Qed.

(** A string is its first [n] characters followed by the rest. *)
Lemma substring_split (n : nat) (s : string) :
  s = String.substring 0 n s
      +:+ String.substring n (String.length s - n) s.
Proof.
  revert s. induction n as [| n IH]; intros s.
  - rewrite Nat.sub_0_r, substring_whole. by destruct s.
  - destruct s as [| c s]; simpl; [reflexivity |].
    rewrite string_cons_app. f_equal. apply IH.
Qed.

Lemma length_substring_0 (n : nat) (s : string) :
  String.length (String.substring 0 n s) = n `min` String.length s.
Proof.
  revert s. induction n as [| n IH]; intros [| c s]; simpl; auto.
Qed.

Lemma substring_app_drop (p r : string) :
  String.substring (String.length p)
    (String.length (p +:+ r) - String.length p) (p +:+ r) = r.
Proof.
  induction p as [| c p IH]; simpl.
  - rewrite Nat.sub_0_r. apply substring_whole.
  - exact IH.
Qed.

Section DescriptionProperties.
Context `{AppServiceHost}.

Lemma description_GitHub (ti : DeploymentsTreeItem) :
  ScmType_GitHub ≠ ScmType_LocalGit ->
  _scmType ti = Some ScmType_GitHub ->
  description ti
  = match _repoUrl ti with
    | Some url =>
        if String.eqb url "" then l10n_t "GitHub"
        else String.substring 19 (String.length url - 19) url
    | None => l10n_t "GitHub"
    end.
Proof.
  intros Hne Hscm. unfold description. rewrite Hscm.
  rewrite bool_decide_eq_false_2 by congruence.
  rewrite bool_decide_eq_true_2 by reflexivity.
  reflexivity.
Qed.

(** X1. For a node deployed from GitHub whose repository URL is
    https://github.com/ followed by the organisation and repository
    names, the description is those names. *)
Theorem description_strips_github_prefix (ti : DeploymentsTreeItem)
    (names : string) :
  ScmType_GitHub ≠ ScmType_LocalGit ->
  _scmType ti = Some ScmType_GitHub ->
  _repoUrl ti = Some ("https://github.com/" +:+ names) ->
  description ti = names.
Proof.
  intros Hne Hscm Hurl. rewrite (description_GitHub ti Hne Hscm), Hurl.
  change (String.eqb ("https://github.com/" +:+ names) "") with false.
  cbv iota.
  exact (substring_app_drop "https://github.com/" names).
Qed.

(** X2. The description does not look at what the repository URL starts
    with: for a GitHub node with a non-empty URL it is the URL without
    its first 19 characters, and so empty for a URL of 19 characters or
    fewer. *)
Theorem description_drops_19_characters (ti : DeploymentsTreeItem)
    (url : string) :
  ScmType_GitHub ≠ ScmType_LocalGit ->
  _scmType ti = Some ScmType_GitHub ->
  _repoUrl ti = Some url ->
  url ≠ "" ->
  url = String.substring 0 19 url +:+ description ti
  ∧ String.length (description ti) = String.length url - 19.
Proof.
  intros Hne Hscm Hurl Hnonempty.
  rewrite (description_GitHub ti Hne Hscm), Hurl.
  destruct (String.eqb_spec url "") as [-> | _]; [done |].
  split; [apply substring_split |].
  pose proof (f_equal String.length (substring_split 19 url)) as Hlen.
  rewrite string_length_app, length_substring_0 in Hlen. lia.
Qed.

(** X3. Without a source control type of LocalGit or GitHub (so also
    before the first [init]) the description is empty; for GitHub
    without a repository URL, or with an empty one, it is the localized
    'GitHub'. *)
Theorem description_fallbacks (ti : DeploymentsTreeItem) :
  _scmType ti ≠ Some ScmType_LocalGit ->
  (_scmType ti ≠ Some ScmType_GitHub -> description ti = "")
  ∧ (_scmType ti = Some ScmType_GitHub ->
     _repoUrl ti = None ∨ _repoUrl ti = Some "" ->
     description ti = l10n_t "GitHub").
Proof.
  intros Hlocal. unfold description.
  rewrite (bool_decide_eq_false_2 _ Hlocal). split.
  - intros Hgit. by rewrite (bool_decide_eq_false_2 _ Hgit).
  - intros Hgit [Hurl | Hurl]; rewrite (bool_decide_eq_true_2 _ Hgit), Hurl;
      reflexivity.
Qed.

(** X4. The label shown for a deploy result that cannot be displayed is
    the first seven characters of its id, the whole id when that is
    shorter; there is none when the id is missing or empty. *)
Theorem labelOnError_short_id (dr : DeployResult) :
  match labelOnError dr with
  | Some shortId =>
      ∃ id rest,
        deployResult_id dr = Some id ∧ id ≠ ""
        ∧ id = shortId +:+ rest
        ∧ String.length shortId = 7 `min` String.length id
  | None => deployResult_id dr = None ∨ deployResult_id dr = Some ""
  end.
Proof.
  unfold labelOnError. destruct (deployResult_id dr) as [id |]; [| by left].
  destruct (String.eqb_spec id "") as [-> | Hne]; [by right |].
  exists id, (String.substring 7 (String.length id - 7) id).
  split; [reflexivity |]. split; [exact Hne |].
  split; [apply substring_split | apply length_substring_0].
Qed.

End DescriptionProperties.

(** ** The deployments node: loading and refreshing *)

Section LoadingProperties.
Context `{AppServiceHost}.

Lemma init_thrown_this (context : IActionContext) (s s1 : TreeState)
    (e : unknown) :
  init context s = (s1, Thrown e) ->
  this s1 = this s ∧ getDeployResultsCalls s1 = getDeployResultsCalls s.
Proof.
  intros Hinit. pose proof (init_cases context s) as Hcases.
  rewrite Hinit in Hcases. simpl in Hcases.
  destruct Hcases as ((Hsite & Hlabel & Hchild & Hadds & Hmask & Hparent)
                      & Hcalls & Hscm & Hurl).
  split; [| exact Hcalls].
  destruct (this s1), (this s). simpl in *. by subst.
Qed.

Lemma init_returned_calls (context : IActionContext) (s s1 : TreeState)
    (u : unit) :
  init context s = (s1, Returned u) ->
  calls s1 = calls s ++ [CreateClient; GetSiteConfig; GetSourceControl].
Proof.
  destruct s as [ti history].
  unfold init, await, getState, modifyState, sdkCall. simpl.
  destruct (createClient (site ti) context history) as [client | e];
    [| discriminate].
  destruct (getSiteConfig client (history ++ [CreateClient]))
    as [siteConfig | e]; [| discriminate].
  destruct (getSourceControl client
              ((history ++ [CreateClient]) ++ [GetSiteConfig]))
    as [sourceControl | e]; [| discriminate].
  intros [= <-]. simpl. by rewrite <- !app_assoc.
Qed.

(** What has happened when [loadMoreChildrenImpl] returns. *)
Lemma loadMoreChildrenImpl_returned (clearCache : bool)
    (context : IActionContext) (s s' : TreeState)
    (children : list AzExtTreeItem) :
  loadMoreChildrenImpl clearCache context s = (s', Returned children) ->
  ∃ s1 client deployments items,
    init context s = (s1, Returned tt)
    ∧ createClient (site (this s1)) context (calls s1) = Returned client
    ∧ retryKuduCall _ context "getDeployResults"
        (getDeployResultsCallback client context)
        {| this := this s1; calls := calls s1 ++ [CreateClient] |}
      = (s', Returned deployments)
    ∧ createTreeItemsWithErrorHandling _ (this s') deployments
        "invalidDeployment"
        (fun dr =>
           match newDeploymentTreeItem (this s') dr (_scmType (this s')) with
           | Returned ti => Returned (Some (ofDeploymentTreeItem ti))
           | Thrown e => Thrown e
           end)
        labelOnError
      = Returned items
    ∧ children
      = if scmType_is_None (this s')
        then items ++ [ofGenericTreeItem (connectToGitHubItem (this s'))]
        else items.
Proof.
  unfold loadMoreChildrenImpl. rewrite await_run.
  destruct (init context s) as [s1 [[] | e]] eqn:Hinit; [| discriminate].
  rewrite await_run, getState_run, await_run, sdkCall_state.
  destruct (createClient (site (this s1)) context (calls s1))
    as [client | e] eqn:Hclient; [| discriminate].
  rewrite await_run.
  destruct (retryKuduCall (list DeployResult) context "getDeployResults"
              (getDeployResultsCallback client context)
              {| this := this s1; calls := calls s1 ++ [CreateClient] |})
    as [s3 [deployments | e]] eqn:Hretry; [| discriminate].
  rewrite await_run, getState_run, await_run.
  unfold liftOutcome at 1.
  destruct (createTreeItemsWithErrorHandling _ _ _ _ _ _)
    as [items | e] eqn:Hitems; [| discriminate].
  rewrite await_run, getState_run.
  intros Hret.
  assert (s3 = s') as ->.
  { destruct (scmType_is_None (this s3)); by inversion Hret. }
  exists s1, client, deployments, items.
  split; [reflexivity |]. split; [exact Hclient |]. split; [exact Hretry |].
  split; [exact Hitems |].
  destruct (scmType_is_None (this s')); by inversion Hret.
Qed.

(** X5. A refresh that returns makes the context value follow the
    fetched site config: unconnected exactly when its scmType is
    [ScmType.None]. A refresh that throws leaves the node, and so its
    context value and description, as it was. *)
Theorem init_contextValue (context : IActionContext) (s : TreeState) :
  match init context s with
  | (s', Returned _) =>
      ∃ client siteConfig,
        createClient (site (this s)) context (calls s) = Returned client
        ∧ getSiteConfig client (calls s ++ [CreateClient])
          = Returned siteConfig
        ∧ contextValue (this s')
          = createContextValue
              ((if decide (scmType siteConfig = Some ScmType_None)
                then "deploymentsUnconnected" else "deploymentsConnected")
               :: contextValuesToAdd (this s))
  | (s', Thrown _) =>
      this s' = this s
      ∧ contextValue (this s') = contextValue (this s)
      ∧ description (this s') = description (this s)
  end.
Proof.
  pose proof (init_cases context s) as Hcases.
  destruct (init context s) as [s' [u | e]] eqn:Hinit; simpl in Hcases.
  - destruct Hcases as ((_ & _ & _ & Hadds & _) & _ & client & siteConfig
                        & sourceControl & Hc & Hg & _ & Hscm & _).
    exists client, siteConfig. split; [exact Hc |]. split; [exact Hg |].
    unfold contextValue, contextValueBase, scmType_is_None.
    rewrite Hadds, Hscm.
    destruct (decide (scmType siteConfig = Some ScmType_None)) as [Heq | Hne].
    + by rewrite (bool_decide_eq_true_2 _ Heq).
    + by rewrite (bool_decide_eq_false_2 _ Hne).
  - destruct (init_thrown_this _ _ _ _ Hinit) as [-> _]. done.
Qed.

(** X6. A failure of [init] is not handled by [loadMoreChildrenImpl]: it
    throws the same error, leaves the node as it was and has made no
    [getDeployResults] call. *)
Theorem loadMoreChildrenImpl_init_failure (clearCache : bool)
    (context : IActionContext) (s s1 : TreeState) (e : unknown) :
  init context s = (s1, Thrown e) ->
  loadMoreChildrenImpl clearCache context s = (s1, Thrown e)
  ∧ this s1 = this s
  ∧ getDeployResultsCalls s1 = getDeployResultsCalls s.
Proof.
  intros Hinit.
  pose proof (loadMoreChildrenImpl_delegates clearCache context s) as Hd.
  rewrite Hinit in Hd. split; [exact Hd |].
  exact (init_thrown_this _ _ _ _ Hinit).
Qed.

(** X7. When [loadMoreChildrenImpl] returns, [init] and the second
    [createClient] have returned, the deploy results are those that
    [retryKuduCall] returned, and the children are the items that
    [createTreeItemsWithErrorHandling] made of these deploy results,
    followed, exactly when the node is unconnected, by the generic
    'Connect to a GitHub Repository...' item whose command is the
    extension prefix and '.connectToGitHub'. *)
Theorem loadMoreChildrenImpl_children (clearCache : bool)
    (context : IActionContext) (s s' : TreeState)
    (children : list AzExtTreeItem) :
  loadMoreChildrenImpl clearCache context s = (s', Returned children) ->
  ∃ s1 client deployments items,
    init context s = (s1, Returned tt)
    ∧ createClient (site (this s1)) context (calls s1) = Returned client
    ∧ retryKuduCall _ context "getDeployResults"
        (getDeployResultsCallback client context)
        {| this := this s1; calls := calls s1 ++ [CreateClient] |}
      = (s', Returned deployments)
    ∧ createTreeItemsWithErrorHandling _ (this s') deployments
        "invalidDeployment"
        (fun dr =>
           match newDeploymentTreeItem (this s') dr (_scmType (this s')) with
           | Returned ti => Returned (Some (ofDeploymentTreeItem ti))
           | Thrown e => Thrown e
           end)
        labelOnError
      = Returned items
    ∧ children
      = if bool_decide (_scmType (this s') = Some ScmType_None)
        then items ++ [ofGenericTreeItem
                         {| generic_parent := this s';
                            generic_commandId :=
                              Some (ext_prefix +:+ ".connectToGitHub");
                            generic_contextValue := "ConnectToGithub";
                            generic_label :=
                              "Connect to a GitHub Repository..." |}]
        else items.
Proof. apply loadMoreChildrenImpl_returned. Qed.

Lemma init_thrown_calls (context : IActionContext) (s s1 : TreeState)
    (e : unknown) :
  init context s = (s1, Thrown e) ->
  calls s1 = calls s ++ [CreateClient]
  ∨ calls s1 = calls s ++ [CreateClient; GetSiteConfig]
  ∨ calls s1 = calls s ++ [CreateClient; GetSiteConfig; GetSourceControl].
Proof.
  destruct s as [ti history].
  unfold init, await, getState, modifyState, sdkCall. simpl.
  destruct (createClient (site ti) context history) as [client | e0].
  2: { intros [= <- _]. by left. }
  destruct (getSiteConfig client (history ++ [CreateClient]))
    as [siteConfig | e0].
  2: { intros [= <- _]. right. left. simpl. by rewrite <- !app_assoc. }
  destruct (getSourceControl client
              ((history ++ [CreateClient]) ++ [GetSiteConfig]))
    as [sourceControl | e0]; [discriminate |].
  intros [= <- _]. right. right. simpl. by rewrite <- !app_assoc.
Qed.

(** X8. Whatever [retryKuduCall] does, a load makes these SDK calls in
    this order before it enters the helper: create the client, get the
    site config, get the source control ([init]), create the client
    again. A load whose [init] throws stops after the first, second or
    third of them; one whose second [createClient] throws stops after
    the fourth; any other load ends in the state the helper leaves when
    started with exactly these four calls made. *)
Theorem loadMoreChildrenImpl_call_sequence (clearCache : bool)
    (context : IActionContext) (s : TreeState) :
  match init context s with
  | (s1, Thrown e) =>
      loadMoreChildrenImpl clearCache context s = (s1, Thrown e)
      ∧ (calls s1 = calls s ++ [CreateClient]
         ∨ calls s1 = calls s ++ [CreateClient; GetSiteConfig]
         ∨ calls s1
           = calls s ++ [CreateClient; GetSiteConfig; GetSourceControl])
  | (s1, Returned _) =>
      let s2 :=
        {| this := this s1;
           calls := calls s ++ [CreateClient; GetSiteConfig;
                                GetSourceControl; CreateClient] |} in
      calls s1 = calls s ++ [CreateClient; GetSiteConfig; GetSourceControl]
      ∧ match createClient (site (this s1)) context (calls s1) with
        | Thrown e =>
            loadMoreChildrenImpl clearCache context s = (s2, Thrown e)
        | Returned client =>
            (loadMoreChildrenImpl clearCache context s).1
            = (retryKuduCall _ context "getDeployResults"
                 (getDeployResultsCallback client context) s2).1
        end
  end.
Proof.
  pose proof (loadMoreChildrenImpl_delegates clearCache context s) as Hd.
  destruct (init context s) as [s1 [[] | e]] eqn:Hinit.
  - pose proof (init_returned_calls _ _ _ _ Hinit) as Hcalls.
    cbv zeta in *. split; [exact Hcalls |].
    assert (calls s1 ++ [CreateClient]
            = calls s ++ [CreateClient; GetSiteConfig; GetSourceControl;
                          CreateClient]) as Heq
      by (rewrite Hcalls; by rewrite <- app_assoc).
    rewrite <- Heq. exact Hd.
  - split; [exact Hd | exact (init_thrown_calls _ _ _ _ Hinit)].
Qed.

(** When the comparator lets one child stand before another. *)
Lemma inChildOrder_cases (c1 c2 : AzExtTreeItem) :
  inChildOrder c1 c2
  ↔ isGenericTreeItem c1 = false
    ∧ (isGenericTreeItem c2 = true ∨ notOlderDeployment c1 c2).
Proof.
  unfold inChildOrder, notOlderDeployment, compareChildrenImpl.
  destruct c1 as [d1 | g1 | i1]; simpl.
  - destruct c2 as [d2 | g2 | i2]; simpl.
    + destruct (receivedTime d1) as [t1 |] eqn:H1';
        destruct (receivedTime d2) as [t2 |] eqn:H2'; simpl.
      * pose proof (roundDouble_sign (t2 - t1)) as Hsign. split.
        -- intros (n & [= <-] & Hle). split; [reflexivity |]. right.
           exists d1, d2, t1, t2. repeat split; try assumption. lia.
        -- intros (_ & [Hg | (d1' & d2' & t1' & t2' & [= <-] & [= <-]
                               & Ht1 & Ht2 & Hle)]); [discriminate |].
           rewrite H1' in Ht1. rewrite H2' in Ht2.
           injection Ht1 as <-. injection Ht2 as <-.
           eexists. split; [reflexivity | lia].
      * split; [intros (n & Hn & _); discriminate |].
        intros (_ & [Hg | (d1' & d2' & t1' & t2' & [= <-] & [= <-]
                           & Ht1 & Ht2 & _)]); [discriminate |].
        rewrite H2' in Ht2. discriminate.
      * split; [intros (n & Hn & _); discriminate |].
        intros (_ & [Hg | (d1' & d2' & t1' & t2' & [= <-] & [= <-]
                           & Ht1 & Ht2 & _)]); [discriminate |].
        rewrite H1' in Ht1. discriminate.
      * split; [intros (n & Hn & _); discriminate |].
        intros (_ & [Hg | (d1' & d2' & t1' & t2' & [= <-] & [= <-]
                           & Ht1 & Ht2 & _)]); [discriminate |].
        rewrite H1' in Ht1. discriminate.
    + split; [intros _; split; [reflexivity | by left] |].
      intros _. exists (-1)%Z. split; [reflexivity | lia].
    + split; [intros (n & Hn & _); discriminate |].
      intros (_ & [Hg | (d1' & d2' & t1' & t2' & _ & Hc2 & _)]);
        discriminate.
  - split; [intros (n & [= <-] & Hle); lia | intros [Hg _]; discriminate].
  - destruct c2 as [d2 | g2 | i2]; simpl.
    + split; [intros (n & Hn & _); discriminate |].
      intros (_ & [Hg | (d1' & d2' & t1' & t2' & Hc1 & _)]); discriminate.
    + split; [intros _; split; [reflexivity | by left] |].
      intros _. exists (-1)%Z. split; [reflexivity | lia].
    + split; [intros (n & Hn & _); discriminate |].
      intros (_ & [Hg | (d1' & d2' & t1' & t2' & Hc1 & _)]); discriminate.
Qed.

(** X9. A list of children is in the order of [compareChildrenImpl]
    (each child compared with each later one gives a number that is not
    positive) exactly when it is a run of children that are not generic
    followed by at most one generic item, where every two children of
    the run are deployment items with valid dates, the earlier at least
    as recent as the later. A run of one child may be anything, an
    invalid item too; with a second child beside it an invalid item is
    never in order. *)
Theorem compareChildrenImpl_sorted_iff (children : list AzExtTreeItem) :
  StronglySorted inChildOrder children
  ↔ ∃ (run : list AzExtTreeItem) (gs : list GenericTreeItem),
      children = run ++ (ofGenericTreeItem <$> gs)
      ∧ Forall (fun c => isGenericTreeItem c = false) run
      ∧ StronglySorted notOlderDeployment run
      ∧ length gs ≤ 1.
Proof.
  split.
  - induction 1 as [| c children Hsorted IH Hall].
    { exists [], []. split; [reflexivity |]. split; [constructor |].
      split; [constructor | simpl; lia]. }
    destruct IH as (run & gs & -> & Hrun & Hsrun & Hgs).
    destruct (isGenericTreeItem c) eqn:Hc.
    + destruct c as [| g |]; try discriminate.
      destruct run as [| c' run].
      * destruct gs as [| g' gs].
        -- exists [], [g]. split; [reflexivity |]. split; [constructor |].
           split; [constructor | simpl; lia].
        -- exfalso. inversion Hall as [| ? ? Hhead _]; subst.
           apply inChildOrder_cases in Hhead as [Hhead _]. discriminate.
      * exfalso. inversion Hall as [| ? ? Hhead _]; subst.
        apply inChildOrder_cases in Hhead as [Hhead _]. discriminate.
    + exists (c :: run), gs. split; [reflexivity |].
      split; [by constructor |]. split; [| exact Hgs].
      constructor; [exact Hsrun |].
      apply Forall_app in Hall as [Hall _].
      apply Forall_forall. intros c' Hc'.
      rewrite Forall_forall in Hall, Hrun.
      pose proof (Hall c' Hc') as Hord.
      apply inChildOrder_cases in Hord as [_ [Hg | Hd]]; [| exact Hd].
      rewrite (Hrun c' Hc') in Hg. discriminate.
  - intros (run & gs & -> & Hrun & Hsrun & Hgs).
    induction Hsrun as [| c run Hsrun IH Hall]; simpl.
    + destruct gs as [| g [| g' gs]]; simpl in *;
        [constructor | | exfalso; lia].
      constructor; constructor.
    + apply Forall_cons in Hrun as [Hc Hrun].
      constructor; [exact (IH Hrun) |].
      apply Forall_app. split.
      * eapply Forall_impl; [exact Hall |].
        intros c' Hd. apply inChildOrder_cases. split; [exact Hc | by right].
      * apply Forall_fmap, Forall_forall. intros g _. unfold compose.
        apply inChildOrder_cases. split; [exact Hc | by left].
Qed.

(** X10. The context value of a node does not depend on the order or on
    repetitions of [contextValuesToAdd]: two nodes with the same members
    there, both unconnected or both not, have the same context value. *)
Theorem contextValue_order_insensitive (ti ti' : DeploymentsTreeItem) :
  scmType_is_None ti = scmType_is_None ti' ->
  (∀ t, t ∈ contextValuesToAdd ti ↔ t ∈ contextValuesToAdd ti') ->
  contextValue ti = contextValue ti'.
Proof.
  intros Hscm Hadds. unfold contextValue, createContextValue. f_equal.
  apply contextTags_unique.
  - apply contextTags_NoDup.
  - apply StronglySorted_Sorted, contextTags_sorted.
  - intros t. rewrite contextTags_elem_of, !elem_of_cons.
    unfold contextValueBase. rewrite Hscm, Hadds. reflexivity.
Qed.

End LoadingProperties.

Lemma description_strips_github_prefix_witness :
  @ScmType_GitHub sampleJs sampleTypes steadyHost
  ≠ @ScmType_LocalGit sampleJs sampleTypes steadyHost
  ∧ _scmType gitHubItem = Some (@ScmType_GitHub sampleJs sampleTypes steadyHost)
  ∧ _repoUrl gitHubItem = Some ("https://github.com/" +:+ "org/repo")
  ∧ @description sampleJs sampleTypes steadyHost gitHubItem = "org/repo".
Proof.
  assert (@ScmType_GitHub sampleJs sampleTypes steadyHost
          ≠ @ScmType_LocalGit sampleJs sampleTypes steadyHost) as Hne
    by discriminate.
  split; [exact Hne |]. split; [reflexivity |]. split; [reflexivity |].
  exact (@description_strips_github_prefix sampleJs sampleTypes steadyHost
           gitHubItem "org/repo" Hne eq_refl eq_refl).
Defined.

Lemma description_drops_19_characters_witness :
  "https://github.com/org/repo"
  = String.substring 0 19 "https://github.com/org/repo"
    +:+ @description sampleJs sampleTypes steadyHost gitHubItem
  ∧ String.length (@description sampleJs sampleTypes steadyHost gitHubItem)
    = String.length "https://github.com/org/repo" - 19.
Proof.
  apply (@description_drops_19_characters sampleJs sampleTypes steadyHost
           gitHubItem "https://github.com/org/repo");
    [discriminate | reflexivity | reflexivity | discriminate].
Defined.

Lemma description_fallbacks_witness :
  _scmType (sampleItem steadyHost)
  ≠ Some (@ScmType_LocalGit sampleJs sampleTypes steadyHost)
  ∧ @description sampleJs sampleTypes steadyHost (sampleItem steadyHost) = "".
Proof.
  assert (_scmType (sampleItem steadyHost)
          ≠ Some (@ScmType_LocalGit sampleJs sampleTypes steadyHost)) as Hlocal
    by discriminate.
  split; [exact Hlocal |].
  apply (@description_fallbacks sampleJs sampleTypes steadyHost
           (sampleItem steadyHost) Hlocal).
  discriminate.
Defined.

Lemma loadMoreChildrenImpl_init_failure_witness :
  @init sampleJs sampleTypes unavailableHost sampleContext
    (sampleState unavailableHost)
  = ({| this := sampleItem unavailableHost;
        calls := [CreateClient; GetSiteConfig] |}, Thrown "503")
  ∧ @loadMoreChildrenImpl sampleJs sampleTypes unavailableHost false
      sampleContext (sampleState unavailableHost)
    = ({| this := sampleItem unavailableHost;
          calls := [CreateClient; GetSiteConfig] |}, Thrown "503").
Proof.
  split; [reflexivity |].
  apply (@loadMoreChildrenImpl_init_failure sampleJs sampleTypes
           unavailableHost false sampleContext (sampleState unavailableHost)).
  reflexivity.
Defined.

Lemma loadMoreChildrenImpl_children_witness :
  ∃ (s' : @TreeState sampleJs sampleTypes)
    (children : list (@AzExtTreeItem sampleJs sampleTypes)),
    @loadMoreChildrenImpl sampleJs sampleTypes unconnectedHost false
      sampleContext (sampleState unconnectedHost)
    = (s', Returned children)
    ∧ children
      = [@ofDeploymentTreeItem sampleJs sampleTypes (Some 1700000000000%Z);
         @ofGenericTreeItem sampleJs sampleTypes
           {| generic_parent := this s';
              generic_commandId := Some "appService.connectToGitHub";
              generic_contextValue := "ConnectToGithub";
              generic_label := "Connect to a GitHub Repository..." |}]
    ∧ ∃ s1 client deployments items,
        @init sampleJs sampleTypes unconnectedHost sampleContext
          (sampleState unconnectedHost)
        = (s1, Returned tt)
        ∧ @createClient sampleJs sampleTypes unconnectedHost
            (site (this s1)) sampleContext (calls s1)
          = Returned client
        ∧ @retryKuduCall sampleJs sampleTypes unconnectedHost _ sampleContext
            "getDeployResults"
            (@getDeployResultsCallback sampleJs sampleTypes unconnectedHost
               client sampleContext)
            {| this := this s1; calls := calls s1 ++ [CreateClient] |}
          = (s', Returned deployments)
        ∧ @createTreeItemsWithErrorHandling sampleJs sampleTypes
            unconnectedHost _ (this s') deployments "invalidDeployment"
            (fun dr =>
               match @newDeploymentTreeItem sampleJs sampleTypes
                       unconnectedHost (this s') dr (_scmType (this s')) with
               | Returned ti => Returned (Some (ofDeploymentTreeItem ti))
               | Thrown e => Thrown e
               end)
            (@labelOnError sampleJs sampleTypes)
          = Returned items
        ∧ children
          = if bool_decide (_scmType (this s') = Some "None")
            then items ++ [ofGenericTreeItem
                             {| generic_parent := this s';
                                generic_commandId :=
                                  Some ("appService" +:+ ".connectToGitHub");
                                generic_contextValue := "ConnectToGithub";
                                generic_label :=
                                  "Connect to a GitHub Repository..." |}]
            else items.
Proof.
  eexists. eexists. split; [reflexivity |]. split; [reflexivity |].
  apply (@loadMoreChildrenImpl_children sampleJs sampleTypes unconnectedHost
           false sampleContext (sampleState unconnectedHost)).
  reflexivity.
Defined.

Lemma contextValue_order_insensitive_witness :
  @scmType_is_None sampleJs sampleTypes steadyHost gitHubItem
  = @scmType_is_None sampleJs sampleTypes steadyHost gitHubItemReordered
  ∧ @contextValue sampleJs sampleTypes steadyHost gitHubItem
    = @contextValue sampleJs sampleTypes steadyHost gitHubItemReordered.
Proof.
  split; [reflexivity |].
  apply (@contextValue_order_insensitive sampleJs sampleTypes steadyHost
           gitHubItem gitHubItemReordered); [reflexivity |].
  intros t. simpl. rewrite !elem_of_cons, elem_of_nil. tauto.
Defined.

(** ** Site commands: what the wrapper leaves alone *)

Section SiteCommandFrame.
Context `{SiteCommandHost}.

(** X11. Whatever the wrapped callback does, the callback registered by
    [registerSiteCommand] leaves the action context as the wrapped one
    left it, except that it may set
    [errorHandling.suppressReportIssue] to true: the callback id, the
    values to mask and the other error-handling settings are never
    touched. *)
Theorem registerSiteCommand_context_frame
    (commandId : string) (callback : CommandCallback unknown)
    (debounce : option Z) (args : list any) (context : IActionContext) :
  let before := (callback args context).1 in
  let after :=
    (reg_callback (registerSiteCommand commandId callback debounce)
       args context).1 in
  callbackId after = callbackId before
  ∧ valuesToMask after = valuesToMask before
  ∧ suppressDisplay (errorHandling after)
    = suppressDisplay (errorHandling before)
  ∧ rethrow (errorHandling after) = rethrow (errorHandling before)
  ∧ forceIncludeInReportIssueCommand (errorHandling after)
    = forceIncludeInReportIssueCommand (errorHandling before)
  ∧ issueProperties (errorHandling after)
    = issueProperties (errorHandling before)
  ∧ (after = before
     ∨ suppressReportIssue (errorHandling after) = Some true).
Proof.
  simpl.
  destruct (callback args context) as [context' [result | error]] eqn:Hc.
  - unfold siteCommandCallback, tryCatch. rewrite Hc. simpl.
    repeat split; auto.
  - rewrite (siteCommandCallback_thrown _ _ _ _ _ Hc).
    destruct (decide (is502or503 error)) as [H5 | Hn].
    + rewrite (handleSiteErrors_friendly _ _ H5). simpl. repeat split; auto.
    + rewrite (handleSiteErrors_rethrow _ _ Hn). simpl. repeat split; auto.
Qed.

End SiteCommandFrame.

(** ** The Azure client factories *)

Section AzureClientProperties.
Context `{AzureClientHost}.

(** X12. [createGenericClient] hands its client the credentials it was
    given, none when called without argument; a base URI only when an
    environment came with the credentials, and then the same one, with
    the same user agent, that [createAzureClient] and
    [createAzureSubscriptionClient] hand their clients for that
    environment; and, unlike these two, never an accept-language. *)
Theorem createGenericClient_options :
  (∀ clientInfo : option GenericClientInfo,
     acceptLanguage (gsc_options (createGenericClient clientInfo)) = None
     ∧ userAgent (gsc_options (createGenericClient clientInfo))
       = Some appendExtensionUserAgent
     ∧ (gsc_credentials (createGenericClient clientInfo) = None
        ↔ clientInfo = None)
     ∧ (baseUri (gsc_options (createGenericClient clientInfo)) = None
        ↔ clientInfo = None
          ∨ ∃ credentials, clientInfo = Some (bareCredentials credentials)))
  ∧ (∀ (credentials : AzExtServiceClientCredentials)
       (subscriptionId : string) (environment : Environment),
       let typed :=
         createAzureClient
           {| info_credentials := credentials;
              info_subscriptionId := subscriptionId;
              info_environment := environment |}
           (fun _ _ options => options) in
       let subscription :=
         createAzureSubscriptionClient
           {| subInfo_credentials := credentials;
              subInfo_environment := environment |}
           (fun _ options => options) in
       let generic :=
         createGenericClient
           (Some (credentialsAndEnvironment credentials environment)) in
       typed = subscription
       ∧ gsc_credentials generic = Some credentials
       ∧ Some (baseUri (gsc_options generic)) = baseUri <$> typed
       ∧ Some (userAgent (gsc_options generic)) = userAgent <$> typed
       ∧ acceptLanguage <$> typed = Some (Some vscode_env_language)).
Proof.
  split.
  - intros [[credentials | credentials environment] |]; simpl;
      (split; [reflexivity |]); (split; [reflexivity |]);
      (split; [split; intros Heq; (discriminate Heq || reflexivity) |]);
      (split; [intros Heq; try discriminate Heq; eauto
              | intros [Heq | [c Heq]]; try discriminate Heq; reflexivity]).
  - intros credentials subscriptionId environment. simpl.
    repeat split; reflexivity.
Qed.

End AzureClientProperties.

(** ** The deployments node: a load that fails half-way *)

Section PartialLoad.
Context `{AppServiceHost}.

(** X13. A load is not atomic. When [init] and the second [createClient]
    have returned and [retryKuduCall] then throws, the load throws that
    error in the state the helper left; and if the helper left the node
    alone, the node has the scmType that [init] just fetched, so its
    context value follows the fetched site config although the load
    failed. *)
Theorem loadMoreChildrenImpl_getDeployResults_failure (clearCache : bool)
    (context : IActionContext) (s s1 s3 : TreeState) (client : SiteClient)
    (e : unknown) :
  init context s = (s1, Returned tt) ->
  createClient (site (this s1)) context (calls s1) = Returned client ->
  retryKuduCall _ context "getDeployResults"
    (getDeployResultsCallback client context)
    {| this := this s1; calls := calls s1 ++ [CreateClient] |}
  = (s3, Thrown e) ->
  this s3 = this s1 ->
  loadMoreChildrenImpl clearCache context s = (s3, Thrown e)
  ∧ ∃ client0 siteConfig,
      createClient (site (this s)) context (calls s) = Returned client0
      ∧ getSiteConfig client0 (calls s ++ [CreateClient])
        = Returned siteConfig
      ∧ contextValue (this s3)
        = createContextValue
            ((if decide (scmType siteConfig = Some ScmType_None)
              then "deploymentsUnconnected" else "deploymentsConnected")
             :: contextValuesToAdd (this s)).
Proof.
  intros Hinit Hclient Hretry Hthis. split.
  - unfold loadMoreChildrenImpl. rewrite await_run, Hinit.
    rewrite await_run, getState_run, await_run, sdkCall_state, Hclient.
    rewrite await_run, Hretry. reflexivity.
  - pose proof (init_cases context s) as Hcases.
    rewrite Hinit in Hcases. simpl in Hcases.
    destruct Hcases as ((_ & _ & _ & Hadds & _) & _ & client0 & siteConfig
                        & sourceControl & Hc & Hg & _ & Hscm & _).
    exists client0, siteConfig. split; [exact Hc |]. split; [exact Hg |].
    unfold contextValue, contextValueBase, scmType_is_None.
    rewrite Hthis, Hadds, Hscm.
    destruct (decide (scmType siteConfig = Some ScmType_None)) as [Heq | Hne].
    + by rewrite (bool_decide_eq_true_2 _ Heq).
    + by rewrite (bool_decide_eq_false_2 _ Hne).
Qed.

End PartialLoad.

(** Kudu is down and the helper has tried four times. *)
Lemma loadMoreChildrenImpl_getDeployResults_failure_witness :
  @contextValue sampleJs sampleTypes kuduDownHost (sampleItem kuduDownHost)
  = "appService;deploymentsConnected"
  ∧ ∃ s' : @TreeState sampleJs sampleTypes,
      @loadMoreChildrenImpl sampleJs sampleTypes kuduDownHost false
        sampleContext (sampleState kuduDownHost)
      = (s', Thrown "500")
      ∧ calls s' = [CreateClient; GetSiteConfig; GetSourceControl;
                    CreateClient; GetDeployResults; GetDeployResults;
                    GetDeployResults; GetDeployResults]
      ∧ @contextValue sampleJs sampleTypes kuduDownHost (this s')
        = "appService;deploymentsUnconnected".
Proof.
  split; [vm_compute; reflexivity |].
  eexists. split; [| split].
  - eapply (@loadMoreChildrenImpl_getDeployResults_failure sampleJs
              sampleTypes kuduDownHost false sampleContext
              (sampleState kuduDownHost));
      reflexivity.
  - reflexivity.
  - vm_compute; reflexivity.
Defined.
